(** * Trivia API: pagination, search and quiz selection

    A shallow embedding of [backend/flaskr/__init__.py].

    - JSON request and response bodies are values of [json]; a Python dict
      is an association list in key order, and numbers are integers.
    - Python exceptions are explicit: a handler body is a [result], the
      bare [except:] clauses are [try_except], and Flask's dispatch of
      [abort] to the registered error handlers is [respond].
    - The question table is a list of rows in store order; handlers that
      write to it return the new table next to the response.
    - [random.randrange] is an oracle [nat -> nat]: the value of the n-th
      call, reduced into the requested range.  The retry loop of
      [play_quiz] need not terminate, so it runs on fuel. *)

From Stdlib Require Import String Ascii List ZArith Lia Bool.
From Stdlib Require DecimalString DecimalZ.
From Stdlib Require Import Sorted Permutation.
Import ListNotations.
Local Open Scope string_scope.
Local Open Scope Z_scope.
Set Warnings "-register-all".

(** ** JSON values and the Python operations the handlers apply to them *)

Inductive json : Type :=
| JNull
| JBool (b : bool)
| JInt (z : Z)
| JStr (s : string)
| JArr (l : list json)
| JObj (m : list (string * json)).

(** [d.get(key)] and [d[key]] on a dict. *)
Fixpoint dict_get (m : list (string * json)) (key : string) : option json :=
  match m with
  | [] => None
  | (k, v) :: m' => if String.eqb k key then Some v else dict_get m' key
  end.

(** Python exceptions: [abort(code)] raises an HTTP exception, everything
    else (TypeError, KeyError, ValueError, AttributeError, a database
    error) is an ordinary one. *)
Inductive exn : Type :=
| HTTPException (code : Z)
| PyError.

Inductive result (A : Type) : Type :=
| Return (a : A)
| Raise (e : exn).
Arguments Return {A} a.
Arguments Raise {A} e.

Definition bind {A B} (r : result A) (k : A -> result B) : result B :=
  match r with
  | Return a => k a
  | Raise e => Raise e
  end.

Notation "x <- r ;; k" := (bind r (fun x => k))
  (at level 61, r at next level, right associativity).

Definition abort {A} (code : Z) : result A := Raise (HTTPException code).

(** [try: body except: handler] with a bare [except], which also catches
    the exception raised by [abort]. *)
Definition try_except {A} (body handler : result A) : result A :=
  match body with
  | Return a => Return a
  | Raise _ => handler
  end.

(** ** Responses *)

Inductive Response : Type :=
| Resp (payload : json) (status : Z)
| InternalServerError.

Definition jsonify (payload : json) : Response := Resp payload 200.

Definition not_found : Response :=
  Resp (JObj [("success", JBool false); ("error", JInt 404);
              ("message", JStr "resource not found")]) 404.

Definition unprocessable : Response :=
  Resp (JObj [("success", JBool false); ("error", JInt 422);
              ("message", JStr "unprocessable")]) 422.

Definition bad_request : Response :=
  Resp (JObj [("success", JBool false); ("error", JInt 400);
              ("message", JStr "bad request")]) 400.

(** What the client receives: the returned response, the registered error
    handler of an aborted request, or a server error for anything that
    escapes the view function. *)
Definition respond (r : result Response) : Response :=
  match r with
  | Return resp => resp
  | Raise (HTTPException code) =>
      if code =? 404 then not_found
      else if code =? 422 then unprocessable
      else if code =? 400 then bad_request
      else InternalServerError
  | Raise PyError => InternalServerError
  end.

(** ** The question table *)

Record Question : Type := mkQuestion {
  id : Z;
  question : string;
  answer : string;
  category : Z;
  difficulty : Z
}.

Definition Store : Type := list Question.

(** Modelled from the spec: [models.py] is not part of the sources read
    here.  [Question.format()] is the JSON object of a row with its id,
    question, answer, category and difficulty. *)
Definition format (q : Question) : json :=
  JObj [("id", JInt (id q)); ("question", JStr (question q));
        ("answer", JStr (answer q)); ("category", JInt (category q));
        ("difficulty", JInt (difficulty q))].

(** Modelled from the spec: the query interface of the store, whose
    implementation is in [models.py] and the database.
    [Question.query.all()] lists the rows in store order,
    [Question.query.get(i)] is the row with that id if there is one,
    [filter_by(category=c)] keeps the rows of a category, and
    [question.delete()] is a hard removal of the row. *)
Definition query_all (db : Store) : list Question := db.

Definition query_get (db : Store) (i : Z) : option Question :=
  find (fun q => id q =? i) db.

Definition filter_by_category (db : Store) (c : Z) : list Question :=
  filter (fun q => category q =? c) db.

Definition delete (q : Question) (db : Store) : Store :=
  filter (fun r => negb (id r =? id q)) db.

(** [order_by(Question.id)]: a stable insertion sort on the id. *)
Fixpoint insert_by_id (q : Question) (l : list Question) : list Question :=
  match l with
  | [] => [q]
  | r :: l' => if id q <? id r then q :: l else r :: insert_by_id q l'
  end.

Definition order_by_id (l : list Question) : list Question :=
  fold_right insert_by_id [] l.

(** ** Paginator *)

Definition QUESTIONS_PER_PAGE : Z := 10.

(** Python's [l[start:stop]] for a list of length [len]: a negative index
    counts from the end, and both ends are clamped to the list. *)
Definition slice_index (len i : Z) : Z :=
  if i <? 0 then Z.max 0 (len + i) else Z.min len i.

Definition py_slice {A} (l : list A) (start stop : Z) : list A :=
  let len := Z.of_nat (List.length l) in
  let lo := slice_index len start in
  let hi := slice_index len stop in
  firstn (Z.to_nat (hi - lo)) (skipn (Z.to_nat lo) l).

(** The part of a request the handlers read.  [args_page] is the [page]
    query argument after [type=int]: [None] when the argument is absent
    or does not convert, in which case [args.get] gives the default. *)
Record Request : Type := mkRequest {
  args_page : option Z;
  get_json : json
}.

Definition paginate_questions (request : Request) (selection : list Question)
  : list json :=
  let page := match args_page request with Some p => p | None => 1 end in
  let start := (page - 1) * QUESTIONS_PER_PAGE in
  let end_ := start + QUESTIONS_PER_PAGE in
  let questions := map format selection in
  let current_questions := py_slice questions start end_ in
  current_questions.

(** The Paginator of the spec: [paginate(items, page)] at the fixed page
    size, which is [paginate_questions] on a request for that page. *)
Definition paginate (items : list Question) (page : Z) : list json :=
  paginate_questions (mkRequest (Some page) JNull) items.

(** Pages [1 .. n], in order. *)
Definition pages (n : nat) : list Z := map (fun i => Z.of_nat (S i)) (seq 0 n).

(** [ceil(len / S)] in integer arithmetic. *)
Definition page_count (len : nat) : nat :=
  Z.to_nat ((Z.of_nat len + QUESTIONS_PER_PAGE - 1) / QUESTIONS_PER_PAGE).

(** ** Search Matcher *)

(** Case folding of ILIKE, on the ASCII letters. *)
Definition lower (c : ascii) : ascii :=
  let n := N_of_ascii c in
  if (65 <=? n)%N && (n <=? 90)%N then ascii_of_N (n + 32) else c.

(** A LIKE pattern as the database reads it: [%] stands for any run of
    characters, [_] for any one character, and a backslash makes the
    character after it literal. *)
Inductive like_token : Type :=
| LAny
| LOne
| LChar (c : ascii).

Definition like_special (c : ascii) : bool :=
  Ascii.eqb c "%" || Ascii.eqb c "_" || Ascii.eqb c "\".

(** [None] is the database error for a pattern that ends in the escape
    character. *)
Fixpoint like_tokens (p : string) : option (list like_token) :=
  match p with
  | EmptyString => Some []
  | String c p' =>
      if Ascii.eqb c "\" then
        match p' with
        | EmptyString => None
        | String d p'' => option_map (cons (LChar d)) (like_tokens p'')
        end
      else if Ascii.eqb c "%" then option_map (cons LAny) (like_tokens p')
      else if Ascii.eqb c "_" then option_map (cons LOne) (like_tokens p')
      else option_map (cons (LChar c)) (like_tokens p')
  end.

Fixpoint like_match (ts : list like_token) : string -> bool :=
  match ts with
  | [] => fun s => match s with EmptyString => true | String _ _ => false end
  | LAny :: ts' =>
      fix any (s : string) : bool :=
        like_match ts' s
        || match s with EmptyString => false | String _ s' => any s' end
  | LOne :: ts' =>
      fun s => match s with
               | EmptyString => false
               | String _ s' => like_match ts' s'
               end
  | LChar c :: ts' =>
      fun s => match s with
               | EmptyString => false
               | String d s' => Ascii.eqb (lower c) (lower d) && like_match ts' s'
               end
  end.

(** [Question.query.filter(Question.question.ilike(pattern)).all()]: the
    rows that match, in store order. *)
Definition filter_ilike (db : Store) (pattern : string) : result (list Question) :=
  match like_tokens pattern with
  | Some ts => Return (filter (fun q => like_match ts (question q)) db)
  | None => Raise PyError
  end.

(** The Search Matcher of the spec: the query that [search_questions]
    runs for a term. *)
Definition search (items : list Question) (term : string)
  : result (list Question) :=
  filter_ilike items ("%" ++ term ++ "%")%string.

(** What the spec asks of a match: the term occurs in the text as a
    substring, letter case aside.  Written from the spec's words, to be
    compared with [search]. *)
Fixpoint prefix_ci (t s : string) : bool :=
  match t with
  | EmptyString => true
  | String c t' =>
      match s with
      | EmptyString => false
      | String d s' => Ascii.eqb (lower c) (lower d) && prefix_ci t' s'
      end
  end.

Fixpoint contains_ci (t s : string) : bool :=
  prefix_ci t s
  || match s with EmptyString => false | String _ s' => contains_ci t s' end.

(** A term in which no character is special to LIKE. *)
Fixpoint plain_term (t : string) : bool :=
  match t with
  | EmptyString => true
  | String c t' => negb (like_special c) && plain_term t'
  end.

(** ** Python operations on request values *)

(** [len(v)] *)
Definition py_len (v : json) : result Z :=
  match v with
  | JStr s => Return (Z.of_nat (String.length s))
  | JArr l => Return (Z.of_nat (List.length l))
  | JObj m => Return (Z.of_nat (List.length m))
  | _ => Raise PyError
  end.

(** ['%' + v + '%']: only a string can be added to a string. *)
Definition py_wrap (v : json) : result string :=
  match v with
  | JStr s => Return ("%" ++ s ++ "%")%string
  | _ => Raise PyError
  end.

(** [for i in v]: the elements of a list, the keys of a dict, the
    characters of a string. *)
Definition py_iter (v : json) : result (list json) :=
  match v with
  | JArr l => Return l
  | JObj m => Return (map (fun kv => JStr (fst kv)) m)
  | JStr s =>
      Return (map (fun c => JStr (String c EmptyString)) (list_ascii_of_string s))
  | _ => Raise PyError
  end.

(** [v == z] for an integer [z]: an integer compares by value, a boolean
    counts as 0 or 1, and nothing else equals an integer. *)
Definition py_eq_int (v : json) (z : Z) : bool :=
  match v with
  | JInt x => x =? z
  | JBool b => (if b then 1 else 0) =? z
  | _ => false
  end.

(** ** The handlers *)

(** A handler whose retry loop may still be running when the fuel is
    spent: [None] is "no response yet". *)
Definition running (A : Type) : Type := option (result A).

Definition lift {A} (r : result A) : running A := Some r.

Definition rbind {A B} (r : running A) (k : A -> running B) : running B :=
  match r with
  | Some (Return a) => k a
  | Some (Raise e) => Some (Raise e)
  | None => None
  end.

Notation "x <~ r ;; k" := (rbind r (fun x => k))
  (at level 61, r at next level, right associativity).

Section Handlers.

(** How the database reads a string bound to the integer [category]
    column; [None] is a database error. *)
Variable int4in : string -> option Z.

(** What the store does with a new row, given the four constructor
    arguments of [Question] as they come from the request ([JNull] for
    [None]): the assigned id and the new table, or [None] when
    [Question(...)] or [insert()] raises. *)
Variable insert : json -> json -> json -> json -> Store -> option (Z * Store).

(** The n-th value of [random.randrange]. *)
Variable rand : nat -> nat.

(** [Question.query.filter_by(category=v).all()] for a request value. *)
Definition filter_by (db : Store) (v : json) : result (list Question) :=
  match v with
  | JInt c => Return (filter_by_category db c)
  | JStr s =>
      match int4in s with
      | Some c => Return (filter_by_category db c)
      | None => Raise PyError
      end
  | JNull => Return []
  | _ => Raise PyError
  end.

(** DELETE /questions/<int:question_id> *)
Definition delete_questions (request : Request) (question_id : Z) (db : Store)
  : Response * Store :=
  let attempt : result (Response * Store) :=
    try_except
      (question <- match query_get db question_id with
                   | None => abort 404
                   | Some q => Return q
                   end ;;
       let db' := delete question db in
       let selection := order_by_id (query_all db') in
       let current_questions := paginate_questions request selection in
       Return (jsonify (JObj [("success", JBool true);
                              ("deleted", JInt question_id);
                              ("questions", JArr current_questions);
                              ("total_questions",
                               JInt (Z.of_nat (List.length (query_all db'))))]),
               db'))
      (abort 422) in
  match attempt with
  | Return (resp, db') => (resp, db')
  | Raise e => (respond (Raise e), db)
  end.

(** [body.get(key, None)] *)
Definition get_or_none (body : list (string * json)) (key : string) : json :=
  match dict_get body key with
  | Some v => v
  | None => JNull
  end.

(** POST /questions *)
Definition add_questions (request : Request) (db : Store) : Response * Store :=
  match get_json request with
  | JObj body =>
      let new_question := get_or_none body "question" in
      let new_answer := get_or_none body "answer" in
      let new_category := get_or_none body "category" in
      let new_difficulty := get_or_none body "difficulty" in
      match body with
      | [] => (respond (abort 422), db)
      | _ :: _ =>
          match insert new_question new_answer new_category new_difficulty db with
          | Some (new_id, db') =>
              (jsonify (JObj [("success", JBool true);
                              ("created", JInt new_id);
                              ("total_questions",
                               JInt (Z.of_nat (List.length (query_all db'))))]),
               db')
          | None => (respond (try_except (Raise PyError) (abort 422)), db)
          end
      end
  | _ =>
      (* body.get on something that is not a dict, outside any try *)
      (respond (Raise PyError), db)
  end.

(** POST /questions/search *)
Definition search_questions (request : Request) (db : Store) : Response :=
  respond
    match get_json request with
    | JObj body =>
        let search_term := get_or_none body "searchTerm" in
        try_except
          (n <- py_len search_term ;;
           search_results <-
             (if negb (n =? 0) then
                pattern <- py_wrap search_term ;;
                found <- filter_ilike db pattern ;;
                if Z.of_nat (List.length found) =? 0 then abort 404
                else Return (Some found)
              else Return None) ;;
           match search_results with
           | Some found =>
               Return (jsonify (JObj [("success", JBool true);
                                      ("questions", JArr (map format found));
                                      ("total_questions",
                                       JInt (Z.of_nat (List.length found)));
                                      ("current_category", JNull)]))
           | None =>
               (* search_results was never assigned *)
               Raise PyError
           end)
          (abort 404)
    | _ => Raise PyError
    end.

(** *** Quiz Selector *)

(** [questions[random.randrange(0, total, 1)]] at the n-th draw;
    [randrange] raises on the empty range. *)
Definition get_random_question (questions : list Question) (n : nat)
  : result Question :=
  let total := List.length questions in
  match total with
  | O => Raise PyError
  | S _ =>
      match nth_error questions (Nat.modulo (rand n) total) with
      | Some q => Return q
      | None => Raise PyError
      end
  end.

(** The flag is set by every element of [previous_questions] that equals
    the id of the question. *)
Definition check_if_shownbefore (previous_questions : json) (q : Question)
  : result bool :=
  items <- py_iter previous_questions ;;
  Return (fold_left
            (fun shownbefore i =>
               if py_eq_int i (id q) then true else shownbefore)
            items false).

(** The two answers of the selector: a question, or [success] alone. *)
Definition FOUND (q : Question) : Response :=
  jsonify (JObj [("success", JBool true); ("question", format q)]).

Definition EXHAUSTED : Response :=
  jsonify (JObj [("success", JBool true)]).

(** The [while] loop, entered with the current [question] after [n]
    draws. *)
Fixpoint sampling (questions : list Question) (previous_questions : json)
  (fuel : nat) (n : nat) (q : Question) : running Response :=
  shown <~ lift (check_if_shownbefore previous_questions q) ;;
  if shown then
    match fuel with
    | O => None
    | S fuel' =>
        q' <~ lift (get_random_question questions n) ;;
        len <~ lift (py_len previous_questions) ;;
        if len =? Z.of_nat (List.length questions) then
          lift (Return EXHAUSTED)
        else sampling questions previous_questions fuel' (S n) q'
    end
  else lift (Return (FOUND q)).

(** The pool of step 1, for the value of [category['id']]. *)
Definition candidate_pool (db : Store) (category_id : json)
  : result (list Question) :=
  if py_eq_int category_id 0 then Return (query_all db)
  else filter_by db category_id.

(** The body of the [try] block. *)
Definition play_quiz_try (fuel : nat) (request : Request) (db : Store)
  : running Response :=
  match get_json request with
  | JObj body =>
      match dict_get body "quiz_category", dict_get body "previous_questions" with
      | Some category, Some previous_questions =>
          category_id <~ lift match category with
                              | JObj c =>
                                  match dict_get c "id" with
                                  | Some v => Return v
                                  | None => Raise PyError
                                  end
                              | _ => Raise PyError
                              end ;;
          questions <~ lift (candidate_pool db category_id) ;;
          q <~ lift (get_random_question questions 0) ;;
          sampling questions previous_questions fuel 1 q
      | _, _ => lift (abort 400)
      end
  | _ =>
      (* the membership test raises or fails, or body.get raises *)
      lift (Raise PyError)
  end.

(** POST /quizzez *)
Definition play_quiz (fuel : nat) (request : Request) (db : Store)
  : option Response :=
  option_map (fun r => respond (try_except r (abort 400)))
             (play_quiz_try fuel request db).

End Handlers.

(** ** Reading a quiz request *)

(** The two inputs of the Quiz Selector as [play_quiz] reads them from a
    well-shaped body: the value of [quiz_category['id']] and the value of
    [previous_questions]. *)
Definition quiz_inputs (request : Request) : option (json * json) :=
  match get_json request with
  | JObj body =>
      match dict_get body "quiz_category", dict_get body "previous_questions" with
      | Some (JObj category), Some previous_questions =>
          match dict_get category "id" with
          | Some category_id => Some (category_id, previous_questions)
          | None => None
          end
      | _, _ => None
      end
  | _ => None
  end.

(** The candidate pool of the spec for an integer category id. *)
Definition pool_of (db : Store) (category_id : Z) : list Question :=
  if category_id =? 0 then query_all db else filter_by_category db category_id.

(** A response other than a 200. *)
Definition is_error (r : Response) : bool :=
  match r with
  | Resp _ status => negb (status =? 200)
  | InternalServerError => true
  end.

(** The tokens of a term without special characters, followed by the
    closing [%]. *)
Fixpoint literal (t : string) : list like_token :=
  match t with
  | EmptyString => [LAny]
  | String c t' => LChar c :: literal t'
  end.

(** ** Sample data *)

(** A store with the one question "abc". *)
Definition abc_question : Question := mkQuestion 1 "abc" "letters" 1 1.

(** [n] questions with the ids [1 .. n]. *)
Definition numbered (n : nat) : list Question :=
  map (fun i => mkQuestion (Z.of_nat i) "question" "answer" 1 1) (seq 1 n).

(** The pool of category 5 has the ids 2, 5 and 9. *)
Definition sample_store : Store :=
  [ mkQuestion 2 "What is the capital of France?" "Paris" 5 1;
    mkQuestion 4 "Who wrote Hamlet?" "Shakespeare" 2 2;
    mkQuestion 5 "What is the title of the first film?" "Unknown" 5 3;
    mkQuestion 9 "abc" "letters" 5 1 ].

(** The body the client posts to [/quizzez]. *)
Definition quiz_request (category_id : Z) (previous_questions : list Z) : Request :=
  mkRequest None
    (JObj [("previous_questions", JArr (map JInt previous_questions));
           ("quiz_category",
            JObj [("type", JStr "click"); ("id", JInt category_id)])]).

(** An instance of the database's reading of a string as an integer, for
    the examples: one decimal digit. *)
Definition digit_int4in (s : string) : option Z :=
  match s with
  | String c EmptyString =>
      let n := N_of_ascii c in
      if (48 <=? n)%N && (n <=? 57)%N then Some (Z.of_N (n - 48)) else None
  | _ => None
  end.

(** An instance of the store's insert, for the examples: a row whose four
    values have the column types is appended under the next id, anything
    else is refused. *)
Definition typed_insert (q a c d : json) (db : Store) : option (Z * Store) :=
  match q, a, c, d with
  | JStr q', JStr a', JInt c', JInt d' =>
      let new_id := 1 + fold_right (fun r m => Z.max (id r) m) 0 db in
      Some (new_id, (db ++ [mkQuestion new_id q' a' c' d'])%list)
  | _, _, _, _ => None
  end.

(** ** The category table and the endpoints that list *)

(** Modelled from the spec: [models.py] is not part of the sources read
    here.  A category has an id and a text label, [type]. *)
Module Category.
Record t : Type := mk { id : Z; type : string }.
End Category.

(** [Category.query.order_by(Category.id)]: a stable insertion sort on the
    id. *)
Fixpoint insert_category (c : Category.t) (l : list Category.t)
  : list Category.t :=
  match l with
  | [] => [c]
  | d :: l' =>
      if Category.id c <? Category.id d then c :: l
      else d :: insert_category c l'
  end.

Definition order_categories (l : list Category.t) : list Category.t :=
  fold_right insert_category [] l.

(** [query.filter_by(id=i).one_or_none()]: the row, [None] when there is
    none, and an exception when there are several. *)
Definition one_or_none (categories : list Category.t) (i : Z)
  : result (option Category.t) :=
  match filter (fun c => Category.id c =? i) categories with
  | [] => Return None
  | [c] => Return (Some c)
  | _ :: _ :: _ => Raise PyError
  end.

(** [d[k] = v] on a dict with integer keys: the value of a key that is
    present is replaced where it stands, a new key goes to the end. *)
Fixpoint dict_set (d : list (Z * string)) (k : Z) (v : string)
  : list (Z * string) :=
  match d with
  | [] => [(k, v)]
  | (k', v') :: d' =>
      if k' =? k then (k, v) :: d' else (k', v') :: dict_set d' k v
  end.

(** The loop of [get_categories] and [get_questions]:
    [for category in selection: d[category.id] = category.type]. *)
Definition category_dict (selection : list Category.t) : list (Z * string) :=
  fold_left (fun d c => dict_set d (Category.id c) (Category.type c))
            selection [].

(** [str(k)] for an integer: its decimal numeral. *)
Definition str (k : Z) : string :=
  DecimalString.NilEmpty.string_of_int (Z.to_int k).

(** A dict from integers to strings as a JSON object: the keys are written
    as decimal numerals. *)
Definition json_of_dict (d : list (Z * string)) : json :=
  JObj (map (fun kv => (str (fst kv), JStr (snd kv))) d).

(** GET /categories *)
Definition get_categories (categories : list Category.t) : Response :=
  let selection := order_categories categories in
  let category_dict := category_dict selection in
  respond (Return (jsonify (JObj [("success", JBool true);
                                  ("categories", json_of_dict category_dict)]))).

(** GET /questions *)
Definition get_questions (request : Request) (db : Store)
  (categories : list Category.t) : Response :=
  let selection := query_all db in
  let current_questions := paginate_questions request selection in
  let categories_dict := category_dict categories in
  respond
    (if Z.of_nat (List.length current_questions) =? 0 then abort 404
     else
       Return (jsonify (JObj [("success", JBool true);
                              ("total_questions",
                               JInt (Z.of_nat (List.length selection)));
                              ("questions", JArr current_questions);
                              ("current_category", JNull);
                              ("categories", json_of_dict categories_dict)]))).

(** GET /categories/<int:id>/questions *)
Definition get_question_by_category (request : Request) (i : Z) (db : Store)
  (categories : list Category.t) : Response :=
  respond
    (try_except
       (category <- one_or_none categories i ;;
        match category with
        | Some c =>
            let selection := filter_by_category db (Category.id c) in
            let paginated_question := paginate_questions request selection in
            Return (jsonify (JObj [("success", JBool true);
                                   ("questions", JArr paginated_question);
                                   ("current_category",
                                    JStr (Category.type c))]))
        | None =>
            (* category.id on None *)
            Raise PyError
        end)
       (abort 404)).

(** [payload[key]] of a response body. *)
Definition field (payload : json) (key : string) : option json :=
  match payload with
  | JObj m => dict_get m key
  | _ => None
  end.

(** Ascending order of id. *)
Definition id_le (a b : Question) : Prop := id a <= id b.

(** The same string with its ASCII capitals in lower case. *)
Fixpoint lowercase (s : string) : string :=
  match s with
  | EmptyString => EmptyString
  | String c s' => String (lower c) (lowercase s')
  end.

(** A row with its question text in lower case. *)
Definition lower_text (q : Question) : Question :=
  mkQuestion (id q) (lowercase (question q)) (answer q) (category q)
             (difficulty q).

(** The question drawn at the n-th call of the random source. *)
Definition draw (rand : nat -> nat) (pool : list Question) (n : nat)
  : option Question :=
  nth_error pool (Nat.modulo (rand n) (List.length pool)).

(** The flag of [check_if_shownbefore] for a list of integer ids. *)
Definition shown (ids : list Z) (q : Question) : bool :=
  existsb (fun i => i =? id q) ids.

(** Sample categories. *)
Definition sample_categories : list Category.t :=
  [ Category.mk 5 "Entertainment"; Category.mk 1 "Science";
    Category.mk 2 "Art"; Category.mk 6 "Sports" ].

(** The body of a request as it is sent: [request.get_json()] raises
    BadRequest, an HTTP exception of code 400, on a body that is not JSON,
    and gives the decoded value otherwise. *)
Inductive sent_body : Type :=
| NotJson
| Json (j : json).

(** POST /questions from its first line on: [request.get_json()] stands
    outside any [try], so its BadRequest goes to the 400 handler. *)
Definition add_questions_sent
  (insert : json -> json -> json -> json -> Store -> option (Z * Store))
  (page : option Z) (sent : sent_body) (db : Store) : Response * Store :=
  match sent with
  | NotJson => (respond (abort 400), db)
  | Json j => add_questions insert (mkRequest page j) db
  end.

(** * Properties *)

(** ** Paginator *)

Section Slices.

Context {A : Type}.

Lemma py_slice_nonneg (l : list A) (start stop : Z) :
  0 <= start -> start <= stop ->
  py_slice l start stop
  = firstn (Z.to_nat (stop - start)) (skipn (Z.to_nat start) l).
Proof.
  intros Hstart Hstop. unfold py_slice, slice_index.
  destruct (Z.ltb_spec start 0) as [|_]; [lia|].
  destruct (Z.ltb_spec stop 0) as [|_]; [lia|].
  destruct (Z.le_gt_cases (Z.of_nat (length l)) start) as [Hout|Hin].
  - rewrite !skipn_all2 by lia. now rewrite !firstn_nil.
  - replace (Z.min (Z.of_nat (length l)) start) with start by lia.
    destruct (Z.le_gt_cases stop (Z.of_nat (length l))) as [Hle|Hgt].
    + now replace (Z.min (Z.of_nat (length l)) stop) with stop by lia.
    + rewrite !firstn_all2; try reflexivity; rewrite length_skipn; lia.
Qed.

Lemma py_slice_stop_zero (l : list A) (start : Z) : py_slice l start 0 = [].
Proof.
  unfold py_slice, slice_index. simpl (0 <? 0).
  replace (Z.min (Z.of_nat (length l)) 0) with 0 by lia.
  replace (Z.to_nat (0 - _)) with O; [reflexivity|].
  destruct (Z.ltb_spec start 0); lia.
Qed.

(** Cutting a list into consecutive blocks of [k] and gluing them back. *)
Lemma concat_blocks (k n : nat) : forall l : list A,
  (length l <= k * n)%nat ->
  concat (map (fun i => firstn k (skipn (k * i) l)) (seq 0 n)) = l.
Proof.
  induction n as [|n IH]; intros l Hlen.
  - destruct l; [reflexivity | simpl in Hlen; lia].
  - cbn [seq map concat]. rewrite Nat.mul_0_r. cbn [skipn].
    rewrite <- seq_shift, map_map.
    transitivity (firstn k l ++ skipn k l)%list; [|apply firstn_skipn].
    f_equal.
    transitivity
      (concat (map (fun i => firstn k (skipn (k * i) (skipn k l))) (seq 0 n)));
      [|apply IH; rewrite length_skipn; lia].
    f_equal. apply map_ext. intros i.
    rewrite skipn_skipn. do 2 f_equal. lia.
Qed.

End Slices.

Lemma paginate_firstn_skipn (items : list Question) (p : Z) :
  1 <= p ->
  paginate items p
  = firstn 10 (skipn (Z.to_nat ((p - 1) * 10)) (map format items)).
Proof.
  intros Hp. unfold paginate, paginate_questions, QUESTIONS_PER_PAGE.
  cbn [args_page]. rewrite py_slice_nonneg by lia.
  now replace ((p - 1) * 10 + 10 - (p - 1) * 10) with 10 by lia.
Qed.

(** C3: for a page [p >= 1], [paginate] is the slice
    [items[(p-1)*10 : (p-1)*10 + 10]] of the formatted items, clamped to the
    list; its length is [min(10, max(0, len(items) - (p-1)*10))]; and a page
    past the end is the empty list. *)
Theorem paginate_page (items : list Question) (p : Z) :
  1 <= p ->
  paginate items p
  = firstn 10 (skipn (Z.to_nat ((p - 1) * 10)) (map format items))
  /\ Z.of_nat (length (paginate items p))
     = Z.min 10 (Z.max 0 (Z.of_nat (length items) - (p - 1) * 10))
  /\ (Z.of_nat (length items) <= (p - 1) * 10 -> paginate items p = []).
Proof.
  intros Hp. rewrite paginate_firstn_skipn by assumption.
  split; [reflexivity|]. split.
  - rewrite length_firstn, length_skipn, length_map. lia.
  - intros Hout. rewrite skipn_all2 by (rewrite length_map; lia).
    apply firstn_nil.
Qed.

Lemma paginate_page_witness :
  1 <= 2
  /\ paginate (numbered 12) 2 = map format (skipn 10 (numbered 12))
  /\ Z.of_nat (length (paginate (numbered 12) 2)) = 2
  /\ paginate (numbered 12) 3 = [].
Proof.
  split; [lia|]. split; [|split].
  - exact (proj1 (paginate_page (numbered 12) 2 ltac:(lia))).
  - exact (proj1 (proj2 (paginate_page (numbered 12) 2 ltac:(lia)))).
  - apply (proj2 (proj2 (paginate_page (numbered 12) 3 ltac:(lia)))).
    vm_compute. discriminate.
Defined.

(** The number of pages is the ceiling of [len / 10]. *)
Lemma page_count_ceiling (len : nat) :
  (len <= 10 * page_count len < len + 10)%nat.
Proof.
  unfold page_count, QUESTIONS_PER_PAGE.
  pose proof (Z.div_mod (Z.of_nat len + 10 - 1) 10 ltac:(lia)).
  pose proof (Z.mod_pos_bound (Z.of_nat len + 10 - 1) 10 ltac:(lia)).
  lia.
Qed.

(** C4: the pages [1 .. ceil(len(items)/10)], concatenated in order, are the
    formatted items. *)
Theorem paginate_concat (items : list Question) :
  concat (map (paginate items) (pages (page_count (length items))))
  = map format items.
Proof.
  unfold pages. rewrite map_map.
  rewrite <- (concat_blocks 10 (page_count (length items)) (map format items)).
  - f_equal. apply map_ext. intros i.
    rewrite paginate_firstn_skipn by lia. do 2 f_equal. lia.
  - rewrite length_map. apply page_count_ceiling.
Qed.

(** C10: on page 0 the slice runs from [-10] to [0] and is empty, whatever
    the items. *)
Theorem paginate_page_zero (body : json) (items : list Question) :
  paginate_questions (mkRequest (Some 0) body) items = []
  /\ paginate items 0 = [].
Proof.
  unfold paginate, paginate_questions, QUESTIONS_PER_PAGE. cbn [args_page].
  change ((0 - 1) * 10 + 10) with 0. now rewrite py_slice_stop_zero.
Qed.

(** ** Search Matcher *)

Lemma like_match_any (ts : list like_token) (s : string) :
  like_match (LAny :: ts) s
  = like_match ts s
    || match s with
       | EmptyString => false
       | String _ s' => like_match (LAny :: ts) s'
       end.
Proof. destruct s; reflexivity. Qed.

Lemma like_match_any_last (s : string) : like_match [LAny] s = true.
Proof.
  induction s as [|c s IH]; [reflexivity|].
  rewrite like_match_any. rewrite IH. apply orb_true_r.
Qed.

Lemma like_tokens_plain (t : string) :
  plain_term t = true -> like_tokens (t ++ "%")%string = Some (literal t).
Proof.
  induction t as [|c t IH]; intros Hplain; [reflexivity|].
  cbn [plain_term] in Hplain. apply andb_true_iff in Hplain as [Hc Ht].
  unfold like_special in Hc. rewrite !negb_orb in Hc.
  apply andb_true_iff in Hc as [Hc Hesc]. apply andb_true_iff in Hc as [Hany Hone].
  apply negb_true_iff in Hesc, Hany, Hone.
  cbn [append like_tokens]. rewrite Hesc, Hany, Hone, (IH Ht). reflexivity.
Qed.

Lemma like_match_literal (t : string) : forall s,
  like_match (literal t) s = prefix_ci t s.
Proof.
  induction t as [|c t IH]; intros s.
  - apply like_match_any_last.
  - destruct s as [|d s]; [reflexivity|]. cbn [literal like_match prefix_ci].
    now rewrite IH.
Qed.

Lemma like_match_contains (t s : string) :
  like_match (LAny :: literal t) s = contains_ci t s.
Proof.
  induction s as [|d s IH]; rewrite like_match_any, like_match_literal.
  - reflexivity.
  - cbn [contains_ci]. now rewrite IH.
Qed.

(** For a term without [%], [_] and backslash the query is the substring
    search of the spec: the rows whose text contains the term, letter case
    aside, in store order. *)
Lemma search_plain_term (items : list Question) (term : string) :
  plain_term term = true ->
  search items term
  = Return (filter (fun q => contains_ci term (question q)) items).
Proof.
  intros Hplain. unfold search, filter_ilike.
  cbn [append like_tokens]. change (Ascii.eqb "%" "\") with false.
  change (Ascii.eqb "%" "%") with true. cbv iota.
  rewrite (like_tokens_plain _ Hplain). cbn [option_map]. f_equal.
  apply filter_ext. intros q. apply like_match_contains.
Qed.

(** The pattern built around a term never ends in a lone escape character,
    so the query itself does not fail. *)
Lemma like_tokens_wrapped (t : string) :
  like_tokens (t ++ "%")%string <> None.
Proof.
  assert (Hstep : forall n t, (String.length t < n)%nat ->
                              like_tokens (t ++ "%")%string <> None).
  { clear t. induction n as [|n IH]; intros t Hlen; [lia|].
    destruct t as [|c t]; [discriminate|].
    cbn [append like_tokens]. cbn [String.length] in Hlen.
    destruct (Ascii.eqb c "\").
    - destruct t as [|d t]; [discriminate|]. cbn [append String.length] in *.
      specialize (IH t ltac:(lia)). destruct (like_tokens (t ++ "%")); [discriminate|easy].
    - specialize (IH t ltac:(lia)).
      destruct (like_tokens (t ++ "%")); [|easy].
      destruct (Ascii.eqb c "%"); [discriminate|].
      destruct (Ascii.eqb c "_"); discriminate. }
  apply (Hstep (S (String.length t))). lia.
Qed.

Lemma search_returns (items : list Question) (term : string) :
  exists found, search items term = Return found
                /\ forall q, In q found -> In q items.
Proof.
  unfold search, filter_ilike. cbn [append like_tokens].
  change (Ascii.eqb "%" "\") with false. change (Ascii.eqb "%" "%") with true.
  cbv iota. pose proof (like_tokens_wrapped term) as Hok.
  destruct (like_tokens (term ++ "%")) as [ts|]; [|easy].
  cbn [option_map]. eexists. split; [reflexivity|].
  intros q Hq. now apply filter_In in Hq.
Qed.

(** C5: the query treats [_] in the term as "any one character": on a
    store with the question "abc" the term "_" returns that question,
    although "abc" does not contain "_". *)
Theorem search_wildcard_term :
  search [abc_question] "_" = Return [abc_question]
  /\ contains_ci "_" (question abc_question) = false
  /\ search_questions (mkRequest None (JObj [("searchTerm", JStr "_")]))
                      [abc_question]
     = jsonify (JObj [("success", JBool true);
                      ("questions", JArr [format abc_question]);
                      ("total_questions", JInt 1);
                      ("current_category", JNull)]).
Proof. repeat split. Qed.

(** C6: a search that matches no question is answered with the 404
    "resource not found" response. *)
Theorem search_empty_not_found (request : Request) (db : Store)
  (body : list (string * json)) (term : string) :
  get_json request = JObj body ->
  dict_get body "searchTerm" = Some (JStr term) ->
  search db term = Return [] ->
  search_questions request db = not_found.
Proof.
  intros Hbody Hterm Hempty. unfold search_questions, get_or_none.
  rewrite Hbody, Hterm. cbn [py_len bind].
  destruct (Z.of_nat (String.length term) =? 0); [reflexivity|].
  cbn [negb py_wrap bind]. unfold search in Hempty. rewrite Hempty.
  reflexivity.
Qed.

Lemma search_empty_not_found_witness :
  search_questions
    (mkRequest None (JObj [("searchTerm", JStr "zzz99")])) [abc_question]
  = not_found.
Proof.
  apply (search_empty_not_found _ _ [("searchTerm", JStr "zzz99")] "zzz99");
    reflexivity.
Defined.

(** A search answered with 200 lists at least one question: the rows the
    query returned, formatted, in store order. *)
Lemma search_questions_success (request : Request) (db : Store)
  (payload : json) :
  search_questions request db = Resp payload 200 ->
  exists term found,
    search db term = Return found /\ found <> []
    /\ payload = JObj [("success", JBool true);
                       ("questions", JArr (map format found));
                       ("total_questions", JInt (Z.of_nat (length found)));
                       ("current_category", JNull)].
Proof.
  unfold search_questions.
  destruct (get_json request) as [| | | | |body]; try discriminate.
  destruct (get_or_none body "searchTerm") as [| | |term|l|m];
    cbn [py_len bind try_except]; try discriminate.
  - destruct (Z.of_nat (String.length term) =? 0); [discriminate|].
    cbn [negb py_wrap bind]. fold (search db term).
    destruct (search db term) as [found|e] eqn:Hsearch; [|discriminate].
    cbn [bind]. destruct found as [|q found]; [discriminate|].
    cbn [length Z.of_nat Z.eqb try_except respond]. unfold jsonify.
    intros [= <-]. exists term, (q :: found).
    split; [exact Hsearch|]. split; [discriminate | reflexivity].
  - destruct (Z.of_nat (length l) =? 0); discriminate.
  - destruct (Z.of_nat (length m) =? 0); discriminate.
Qed.

(** ** Quiz Selector *)

Section Quiz.

Variable int4in : string -> option Z.
Variable rand : nat -> nat.

Lemma play_quiz_try_inputs fuel request db category_id previous_questions :
  quiz_inputs request = Some (category_id, previous_questions) ->
  play_quiz_try int4in rand fuel request db
  = (questions <~ lift (candidate_pool int4in db category_id) ;;
     q <~ lift (get_random_question rand questions 0) ;;
     sampling rand questions previous_questions fuel 1 q).
Proof.
  unfold quiz_inputs, play_quiz_try. intros Hin.
  destruct (get_json request) as [| | | | |body]; try discriminate.
  destruct (dict_get body "quiz_category") as [[| | | | |category]|];
    try discriminate.
  destruct (dict_get body "previous_questions") as [prev|]; try discriminate.
  destruct (dict_get category "id") as [cid|]; try discriminate.
  now injection Hin as -> ->.
Qed.

Lemma candidate_pool_int db c :
  candidate_pool int4in db (JInt c) = Return (pool_of db c).
Proof.
  unfold candidate_pool, pool_of. cbn [py_eq_int filter_by].
  now destruct (c =? 0).
Qed.

Lemma pool_of_spec db c x :
  In x (pool_of db c) <-> In x db /\ (c = 0 \/ category x = c).
Proof.
  unfold pool_of, query_all, filter_by_category.
  destruct (Z.eqb_spec c 0) as [->|Hc].
  - tauto.
  - rewrite filter_In, Z.eqb_eq. tauto.
Qed.

Lemma get_random_question_In questions n q :
  get_random_question rand questions n = Return q -> In q questions.
Proof.
  unfold get_random_question. destruct (length questions); [discriminate|].
  destruct (nth_error _ _) eqn:Hnth; [|discriminate].
  intros [= <-]. eapply nth_error_In, Hnth.
Qed.

Lemma get_random_question_total questions n :
  questions <> [] -> exists q, get_random_question rand questions n = Return q.
Proof.
  intros Hne. unfold get_random_question.
  destruct questions as [|q0 questions]; [easy|].
  set (l := q0 :: questions).
  change (length l) with (S (length questions)) at 1.
  destruct (nth_error l (rand n mod length l)) eqn:Hnth; [eauto|].
  apply nth_error_None in Hnth.
  pose proof (Nat.mod_upper_bound (rand n) (length l)). simpl in *. lia.
Qed.

Lemma shown_fold (z : Z) (items : list json) : forall acc,
  fold_left (fun shownbefore i => if py_eq_int i z then true else shownbefore)
            items acc
  = acc || existsb (fun i => py_eq_int i z) items.
Proof.
  induction items as [|i items IH]; intros acc; cbn [fold_left existsb].
  - now rewrite orb_false_r.
  - rewrite IH. destruct (py_eq_int i z), acc; reflexivity.
Qed.

Lemma check_if_shownbefore_ids (ids : list Z) (q : Question) :
  check_if_shownbefore (JArr (map JInt ids)) q
  = Return (existsb (fun i => i =? id q) ids).
Proof.
  unfold check_if_shownbefore. cbn [py_iter bind]. rewrite shown_fold.
  cbn [orb]. f_equal. induction ids as [|i ids IH]; [reflexivity|].
  cbn [map existsb py_eq_int]. now rewrite IH.
Qed.

Lemma FOUND_inj q q' : FOUND q = FOUND q' -> q = q'.
Proof.
  destruct q, q'. unfold FOUND, jsonify, format. cbn.
  intros H. injection H as -> -> -> -> ->. reflexivity.
Qed.

(** What the loop hands out as found is the question it was entered with
    or one drawn from the pool, and was not shown before. *)
Lemma sampling_found questions previous_questions q' :
  forall fuel n q,
    sampling rand questions previous_questions fuel n q
    = Some (Return (FOUND q')) ->
    (q' = q \/ In q' questions)
    /\ check_if_shownbefore previous_questions q' = Return false.
Proof.
  induction fuel as [|fuel IH]; intros n q; cbn [sampling];
    unfold rbind, lift;
    destruct (check_if_shownbefore previous_questions q) as [[|]|e] eqn:Hshown;
    try discriminate.
  - intros Hq. assert (q = q') as <- by (apply FOUND_inj; congruence). auto.
  - destruct (get_random_question rand questions n) as [q1|e] eqn:Hdraw;
      [|discriminate].
    destruct (py_len previous_questions) as [len|e]; [|discriminate].
    destruct (len =? _); [discriminate|].
    intros Hrec. apply IH in Hrec as [[->|Hin] Hfresh]; split; auto.
    right. eapply get_random_question_In, Hdraw.
  - intros Hq. assert (q = q') as <- by (apply FOUND_inj; congruence). auto.
Qed.

(** Whenever the loop is about to redraw and the length of
    [previous_questions] equals the size of the pool, it stops with
    EXHAUSTED, at whichever draw this happens. *)
Lemma sampling_exhausted questions previous_questions fuel n q :
  questions <> [] ->
  check_if_shownbefore previous_questions q = Return true ->
  py_len previous_questions = Return (Z.of_nat (length questions)) ->
  sampling rand questions previous_questions (S fuel) n q
  = Some (Return EXHAUSTED).
Proof.
  intros Hne Hshown Hlen. cbn [sampling]. unfold rbind, lift.
  rewrite Hshown.
  destruct (get_random_question_total questions n Hne) as [q' ->].
  rewrite Hlen, Z.eqb_refl. reflexivity.
Qed.

(** With any other length the loop never reports exhaustion. *)
Lemma sampling_not_exhausted questions previous_questions len :
  py_len previous_questions = Return len ->
  len <> Z.of_nat (length questions) ->
  forall fuel n q,
    sampling rand questions previous_questions fuel n q
    <> Some (Return EXHAUSTED).
Proof.
  intros Hlen Hneq. induction fuel as [|fuel IH]; intros n q; cbn [sampling];
    unfold rbind, lift;
    destruct (check_if_shownbefore previous_questions q) as [[|]|e];
    try discriminate.
  destruct (get_random_question rand questions n) as [q1|e]; [|discriminate].
  rewrite Hlen. destruct (Z.eqb_spec len (Z.of_nat (length questions))); [easy|].
  apply IH.
Qed.

End Quiz.

(** C1: on a call with integer category id [c] and previous ids [ids], where
    the pool is not empty and [ids] is a strict subset of the ids of the
    pool, a FOUND answer carries a question of the pool whose id is not in
    [ids]; the pool is every question when [c = 0] and otherwise the
    questions of category [c]. *)
Theorem play_quiz_found (int4in : string -> option Z) (rand : nat -> nat)
  (fuel : nat) (request : Request) (db : Store) (c : Z) (ids : list Z)
  (q : Question) :
  quiz_inputs request = Some (JInt c, JArr (map JInt ids)) ->
  pool_of db c <> [] ->
  incl ids (map id (pool_of db c)) ->
  ~ incl (map id (pool_of db c)) ids ->
  play_quiz int4in rand fuel request db = Some (FOUND q) ->
  candidate_pool int4in db (JInt c) = Return (pool_of db c)
  /\ (forall x, In x (pool_of db c) <-> In x db /\ (c = 0 \/ category x = c))
  /\ In q (pool_of db c)
  /\ ~ In (id q) ids.
Proof.
  intros Hin _ _ _ Hfound.
  split; [apply candidate_pool_int|]. split; [apply pool_of_spec|].
  unfold play_quiz in Hfound.
  rewrite (play_quiz_try_inputs _ _ _ _ _ _ _ Hin), candidate_pool_int in Hfound.
  cbn [lift rbind] in Hfound.
  destruct (get_random_question rand (pool_of db c) 0) as [q0|e] eqn:Hdraw;
    [|discriminate].
  destruct (sampling rand (pool_of db c) (JArr (map JInt ids)) fuel 1 q0)
    as [[resp|e]|] eqn:Hloop; try discriminate.
  cbn [option_map try_except respond] in Hfound.
  injection Hfound as ->.
  apply sampling_found in Hloop as [Hq Hfresh]. split.
  - destruct Hq as [->|Hq]; [eapply get_random_question_In, Hdraw | exact Hq].
  - rewrite check_if_shownbefore_ids in Hfresh. injection Hfresh as Hfresh.
    intros Hshown.
    assert (Hex : existsb (fun i => i =? id q) ids = true)
      by (apply existsb_exists; exists (id q); split;
          [exact Hshown | apply Z.eqb_refl]).
    congruence.
Qed.

Lemma play_quiz_found_witness :
  play_quiz digit_int4in (fun n => n) 5 (quiz_request 5 [2]) sample_store
  = Some (FOUND (mkQuestion 5 "What is the title of the first film?" "Unknown" 5 3))
  /\ ~ In 5 [2].
Proof.
  split; [reflexivity|].
  apply (play_quiz_found digit_int4in (fun n => n) 5 (quiz_request 5 [2])
           sample_store 5 [2]
           (mkQuestion 5 "What is the title of the first film?" "Unknown" 5 3)).
  - reflexivity.
  - discriminate.
  - intros i [<-|[]]. simpl. auto.
  - intros Hincl. specialize (Hincl 5). simpl in Hincl.
    destruct Hincl as [Hi|[]]; [auto|discriminate].
  - reflexivity.
Defined.

(** Under the same conditions some run of the random source does end in
    FOUND: the condition of C1 can be met. *)
Lemma play_quiz_can_find (int4in : string -> option Z) (request : Request)
  (db : Store) (c : Z) (ids : list Z) :
  quiz_inputs request = Some (JInt c, JArr (map JInt ids)) ->
  ~ incl (map id (pool_of db c)) ids ->
  exists rand q, play_quiz int4in rand 0 request db = Some (FOUND q).
Proof.
  intros Hin Hnot.
  assert (Hex : exists q, In q (pool_of db c) /\ ~ In (id q) ids).
  { clear Hin. induction (pool_of db c) as [|x pool IH].
    - exfalso. apply Hnot. intros i [].
    - destruct (In_dec Z.eq_dec (id x) ids) as [Hx|Hx].
      + destruct IH as (q & Hq & Hfresh).
        * intros Hincl. apply Hnot. intros i [<-|Hi]; auto.
        * exists q. split; [now right | exact Hfresh].
      + exists x. split; [now left | exact Hx]. }
  destruct Hex as (q & Hq & Hfresh).
  destruct (In_nth_error _ _ Hq) as [i Hi].
  assert (Hlt : (i < length (pool_of db c))%nat)
    by (apply nth_error_Some; congruence).
  exists (fun _ => i), q. unfold play_quiz.
  rewrite (play_quiz_try_inputs _ _ _ _ _ _ _ Hin), candidate_pool_int.
  cbn [lift rbind]. unfold get_random_question.
  destruct (length (pool_of db c)) as [|k] eqn:Hk; [lia|].
  rewrite Nat.mod_small, Hi by lia.
  cbn [sampling]. rewrite check_if_shownbefore_ids.
  replace (existsb (fun j => j =? id q) ids) with false; [reflexivity|].
  symmetry. apply not_true_is_false. intros Hshown.
  apply existsb_exists in Hshown as (j & Hj & Heq).
  apply Z.eqb_eq in Heq as ->. auto.
Qed.

(** C2: when a redraw is due (the current question was shown before) and
    [len(previous_questions)] equals the size of the pool, the selector
    stops with EXHAUSTED, at whichever draw this happens and whatever the
    random source gives; EXHAUSTED is the 200 answer with [success] alone,
    without a question. *)
Theorem play_quiz_exhausted (int4in : string -> option Z) (rand : nat -> nat)
  (fuel : nat) (request : Request) (db : Store)
  (category_id previous_questions : json) (pool : list Question) :
  quiz_inputs request = Some (category_id, previous_questions) ->
  candidate_pool int4in db category_id = Return pool ->
  pool <> [] ->
  py_len previous_questions = Return (Z.of_nat (length pool)) ->
  (forall n q,
      check_if_shownbefore previous_questions q = Return true ->
      sampling rand pool previous_questions (S fuel) n q
      = Some (Return EXHAUSTED))
  /\ (forall q0,
         get_random_question rand pool 0 = Return q0 ->
         check_if_shownbefore previous_questions q0 = Return true ->
         play_quiz int4in rand (S fuel) request db = Some EXHAUSTED)
  /\ EXHAUSTED = Resp (JObj [("success", JBool true)]) 200.
Proof.
  intros Hin Hpool Hne Hlen. split; [|split; [|reflexivity]].
  - intros n q Hshown. now apply sampling_exhausted.
  - intros q0 Hdraw Hshown. unfold play_quiz.
    rewrite (play_quiz_try_inputs _ _ _ _ _ _ _ Hin), Hpool.
    cbn [lift rbind]. rewrite Hdraw.
    rewrite sampling_exhausted by assumption. reflexivity.
Qed.

Lemma play_quiz_exhausted_witness :
  play_quiz digit_int4in (fun n => n) 1 (quiz_request 5 [2; 5; 9]) sample_store
  = Some EXHAUSTED.
Proof.
  refine (proj1 (proj2 (play_quiz_exhausted digit_int4in (fun n => n) 0
                          (quiz_request 5 [2; 5; 9]) sample_store
                          (JInt 5) (JArr (map JInt [2; 5; 9]))
                          (pool_of sample_store 5) _ _ _ _))
            (mkQuestion 2 "What is the capital of France?" "Paris" 5 1) _ _);
    try reflexivity.
  discriminate.
Defined.

(** C7: a call whose candidate pool is empty is answered with the 400
    "bad request" error, which is neither FOUND nor EXHAUSTED. *)
Theorem play_quiz_empty_pool (int4in : string -> option Z) (rand : nat -> nat)
  (fuel : nat) (request : Request) (db : Store)
  (category_id previous_questions : json) :
  quiz_inputs request = Some (category_id, previous_questions) ->
  candidate_pool int4in db category_id = Return [] ->
  play_quiz int4in rand fuel request db = Some bad_request
  /\ bad_request <> EXHAUSTED
  /\ (forall q, bad_request <> FOUND q).
Proof.
  intros Hin Hpool. split; [|split; [discriminate | intros q; discriminate]].
  unfold play_quiz.
  rewrite (play_quiz_try_inputs _ _ _ _ _ _ _ Hin), Hpool. reflexivity.
Qed.

Lemma play_quiz_empty_pool_witness :
  play_quiz digit_int4in (fun n => n) 3 (quiz_request 7 []) sample_store
  = Some bad_request.
Proof.
  apply (play_quiz_empty_pool digit_int4in (fun n => n) 3 (quiz_request 7 [])
           sample_store (JInt 7) (JArr [])); reflexivity.
Defined.

(** ** Delete and create *)

Lemma query_get_none (db : Store) (i : Z) :
  query_get db i = None <-> forall q, In q db -> id q <> i.
Proof.
  unfold query_get. split.
  - intros Hnone q Hq Heq. apply (find_none _ _ Hnone) in Hq.
    apply Z.eqb_neq in Hq. auto.
  - intros Hall. destruct (find _ db) as [q|] eqn:Hfind; [|reflexivity].
    apply find_some in Hfind as [Hq Heq]. apply Z.eqb_eq in Heq.
    now apply Hall in Hq.
Qed.

(** A delete either removes the row and answers 200, or answers 422 and
    leaves the table as it was. *)
Lemma delete_questions_cases (request : Request) (question_id : Z) (db : Store) :
  match query_get db question_id with
  | Some q =>
      exists payload,
        delete_questions request question_id db = (Resp payload 200, delete q db)
  | None => delete_questions request question_id db = (unprocessable, db)
  end.
Proof.
  unfold delete_questions. destruct (query_get db question_id) as [q|].
  - cbn [bind try_except]. eexists. reflexivity.
  - reflexivity.
Qed.

(** C8: deleting an id that no row has is answered with the 422
    "unprocessable" error and leaves the table unchanged; and whenever a
    delete is answered with an error the table is unchanged. *)
Theorem delete_questions_missing (request : Request) (question_id : Z)
  (db : Store) :
  (query_get db question_id = None ->
   delete_questions request question_id db = (unprocessable, db))
  /\ (is_error (fst (delete_questions request question_id db)) = true ->
      snd (delete_questions request question_id db) = db).
Proof.
  pose proof (delete_questions_cases request question_id db) as Hcases.
  destruct (query_get db question_id) as [q|].
  - destruct Hcases as [payload ->]. split; discriminate.
  - rewrite Hcases. split; reflexivity.
Qed.

Lemma delete_questions_missing_witness :
  delete_questions (mkRequest None JNull) 77 sample_store
  = (unprocessable, sample_store)
  /\ snd (delete_questions (mkRequest None JNull) 77 sample_store) = sample_store.
Proof.
  split.
  - apply (proj1 (delete_questions_missing (mkRequest None JNull) 77 sample_store)).
    reflexivity.
  - apply (proj2 (delete_questions_missing (mkRequest None JNull) 77 sample_store)).
    reflexivity.
Defined.

(** C9, as the claim has it, fails: the empty body is answered with 422
    "unprocessable", not with 400 "bad request". *)
Lemma add_questions_empty_body_not_bad_request :
  fst (add_questions typed_insert (mkRequest None (JObj [])) sample_store)
  = unprocessable
  /\ fst (add_questions typed_insert (mkRequest None (JObj [])) sample_store)
     <> bad_request.
Proof. split; [reflexivity | discriminate]. Qed.

(** C9, amended: for a body that is an object, an empty one is rejected
    with 422 "unprocessable", which is not the 400 "bad request", and the
    table is unchanged; one with missing fields is not rejected by the
    handler: the missing fields reach the store as [None], and the answer
    is the 422 with the table unchanged when the store refuses the row and
    a 200 when it takes it. *)
Theorem add_questions_unprocessable
  (insert : json -> json -> json -> json -> Store -> option (Z * Store))
  (request : Request) (db : Store) (body : list (string * json)) :
  get_json request = JObj body ->
  (body = [] -> add_questions insert request db = (unprocessable, db))
  /\ (body <> [] ->
      add_questions insert request db
      = match insert (get_or_none body "question") (get_or_none body "answer")
                     (get_or_none body "category")
                     (get_or_none body "difficulty") db with
        | Some (new_id, db') =>
            (Resp (JObj [("success", JBool true); ("created", JInt new_id);
                         ("total_questions", JInt (Z.of_nat (length db')))])
                  200,
             db')
        | None => (unprocessable, db)
        end)
  /\ (forall key, dict_get body key = None -> get_or_none body key = JNull)
  /\ unprocessable <> bad_request.
Proof.
  intros Hbody. unfold add_questions. rewrite Hbody.
  split; [|split; [|split]].
  - now intros ->.
  - intros Hne. destruct body as [|kv body]; [easy|].
    now destruct (insert _ _ _ _ db) as [[new_id db']|].
  - intros key Hkey. unfold get_or_none. now rewrite Hkey.
  - discriminate.
Qed.

Lemma add_questions_unprocessable_witness :
  add_questions typed_insert (mkRequest None (JObj [])) sample_store
  = (unprocessable, sample_store)
  /\ add_questions typed_insert
       (mkRequest None (JObj [("question", JStr "What is 15 squared?")]))
       sample_store
     = match typed_insert (JStr "What is 15 squared?") JNull JNull JNull
               sample_store with
       | Some (new_id, db') =>
           (Resp (JObj [("success", JBool true); ("created", JInt new_id);
                        ("total_questions", JInt (Z.of_nat (length db')))])
                 200,
            db')
       | None => (unprocessable, sample_store)
       end.
Proof.
  split.
  - exact (proj1 (add_questions_unprocessable typed_insert
                    (mkRequest None (JObj [])) sample_store [] eq_refl)
             eq_refl).
  - refine (proj1 (proj2 (add_questions_unprocessable typed_insert
                            (mkRequest None
                               (JObj [("question", JStr "What is 15 squared?")]))
                            sample_store
                            [("question", JStr "What is 15 squared?")] eq_refl))
              _).
    discriminate.
Defined.

(** * Further properties of the endpoints *)

(** ** Listing questions *)

Lemma py_slice_negative {A : Type} (l : list A) (start stop : Z) :
  start < 0 -> stop < 0 -> start <= stop ->
  py_slice l start stop
  = skipn (Z.to_nat (Z.of_nat (length l) + start))
          (firstn (Z.to_nat (Z.of_nat (length l) + stop)) l).
Proof.
  intros Hstart Hstop Hle. unfold py_slice, slice_index.
  destruct (Z.ltb_spec start 0) as [_|]; [|lia].
  destruct (Z.ltb_spec stop 0) as [_|]; [|lia].
  rewrite skipn_firstn_comm.
  replace (Z.to_nat (Z.max 0 (Z.of_nat (length l) + start)))
    with (Z.to_nat (Z.of_nat (length l) + start)) by lia.
  f_equal. lia.
Qed.

(** X1: a negative page counts from the end of the list: page [p < 0] is what
    is left of the last ten items once the last [10 * |p|] are dropped. *)
Theorem paginate_negative_page (items : list Question) (p : Z) :
  p < 0 ->
  paginate items p
  = skipn (Z.to_nat (Z.of_nat (length items) + p * 10 - 10))
          (firstn (Z.to_nat (Z.of_nat (length items) + p * 10))
                  (map format items))
  /\ Z.of_nat (length (paginate items p))
     = Z.min 10 (Z.max 0 (Z.of_nat (length items) + p * 10)).
Proof.
  intros Hp.
  assert (Heq : paginate items p
                = skipn (Z.to_nat (Z.of_nat (length items) + p * 10 - 10))
                        (firstn (Z.to_nat (Z.of_nat (length items) + p * 10))
                                (map format items))).
  { unfold paginate, paginate_questions, QUESTIONS_PER_PAGE. cbn [args_page].
    rewrite py_slice_negative by lia. rewrite length_map.
    f_equal; [f_equal; lia | do 2 f_equal; lia]. }
  split; [exact Heq|]. rewrite Heq.
  rewrite length_skipn, length_firstn, length_map. lia.
Qed.

Lemma paginate_negative_page_witness :
  paginate (numbered 25) (-1) = map format (firstn 10 (skipn 5 (numbered 25)))
  /\ Z.of_nat (length (paginate (numbered 25) (-1))) = 10.
Proof.
  split.
  - exact (proj1 (paginate_negative_page (numbered 25) (-1) ltac:(lia))).
  - exact (proj2 (paginate_negative_page (numbered 25) (-1) ltac:(lia))).
Defined.

Lemma get_questions_cases (request : Request) (db : Store)
  (categories : list Category.t) :
  get_questions request db categories
  = match paginate_questions request db with
    | [] => not_found
    | _ :: _ =>
        jsonify (JObj [("success", JBool true);
                       ("total_questions", JInt (Z.of_nat (length db)));
                       ("questions", JArr (paginate_questions request db));
                       ("current_category", JNull);
                       ("categories",
                        json_of_dict (category_dict categories))])
    end.
Proof.
  unfold get_questions, query_all.
  destruct (paginate_questions request db); reflexivity.
Qed.

(** X2: GET /questions on page [p >= 1] answers 404 exactly when the page
    starts at or past the end of the table, an empty table included. *)
Theorem get_questions_not_found (body : json) (db : Store)
  (categories : list Category.t) (p : Z) :
  1 <= p ->
  (get_questions (mkRequest (Some p) body) db categories = not_found
   <-> Z.of_nat (length db) <= (p - 1) * 10).
Proof.
  intros Hp. rewrite get_questions_cases.
  change (paginate_questions (mkRequest (Some p) body) db) with (paginate db p).
  destruct (paginate_page db p Hp) as (_ & Hlen & _).
  destruct (paginate db p) as [|x page]; cbn [length] in Hlen.
  - split; [lia | reflexivity].
  - split; [discriminate | lia].
Qed.

Lemma get_questions_not_found_witness :
  get_questions (mkRequest (Some 1000) JNull) sample_store sample_categories
  = not_found.
Proof.
  apply (proj2 (get_questions_not_found JNull sample_store sample_categories
                  1000 ltac:(lia))).
  vm_compute. discriminate.
Defined.

Lemma py_slice_map {A B : Type} (f : A -> B) (l : list A) (start stop : Z) :
  py_slice (map f l) start stop = map f (py_slice l start stop).
Proof.
  unfold py_slice. rewrite length_map. now rewrite skipn_map, firstn_map.
Qed.

Lemma py_slice_infix {A : Type} (l : list A) (start stop : Z) :
  exists before after, l = (before ++ py_slice l start stop ++ after)%list.
Proof.
  unfold py_slice.
  set (lo := Z.to_nat (slice_index (Z.of_nat (length l)) start)).
  set (k := Z.to_nat (_ - _)).
  exists (firstn lo l), (skipn k (skipn lo l)).
  now rewrite firstn_skipn, firstn_skipn.
Qed.

Lemma py_slice_length {A : Type} (l : list A) (start stop : Z) :
  start <= stop ->
  Z.of_nat (length (py_slice l start stop)) <= stop - start.
Proof.
  intros Hle. unfold py_slice, slice_index. rewrite length_firstn.
  destruct (Z.ltb_spec start 0), (Z.ltb_spec stop 0); lia.
Qed.

(** The page of a request, as rows. *)
Lemma paginate_questions_rows (request : Request) (selection : list Question) :
  exists before page after,
    selection = (before ++ page ++ after)%list
    /\ (length page <= 10)%nat
    /\ paginate_questions request selection = map format page.
Proof.
  unfold paginate_questions, QUESTIONS_PER_PAGE.
  set (start := (_ - 1) * 10). rewrite py_slice_map.
  destruct (py_slice_infix selection start (start + 10)) as (before & after & Heq).
  exists before, (py_slice selection start (start + 10)), after.
  split; [exact Heq|]. split; [|reflexivity].
  pose proof (py_slice_length selection start (start + 10) ltac:(lia)). lia.
Qed.

(** X3: a 200 answer of GET /questions lists between one and ten questions, a
    contiguous run of the table in store order, and [total_questions] is
    the size of the whole table whatever the page. *)
Theorem get_questions_success (request : Request) (db : Store)
  (categories : list Category.t) (payload : json) :
  get_questions request db categories = Resp payload 200 ->
  exists before page after,
    db = (before ++ page ++ after)%list
    /\ (1 <= length page <= 10)%nat
    /\ field payload "questions" = Some (JArr (map format page))
    /\ field payload "total_questions" = Some (JInt (Z.of_nat (length db))).
Proof.
  rewrite get_questions_cases.
  destruct (paginate_questions_rows request db)
    as (before & page & after & Hdb & Hlen & Hpage).
  rewrite Hpage. destruct page as [|q page]; [discriminate|].
  cbn [map]. unfold jsonify. intros [= <-].
  exists before, (q :: page), after. cbn [length] in *.
  repeat split; try assumption; lia.
Qed.

Lemma get_questions_success_witness :
  exists before page after,
    numbered 12 = (before ++ page ++ after)%list
    /\ (1 <= length page <= 10)%nat
    /\ Some (JArr (paginate (numbered 12) 2)) = Some (JArr (map format page))
    /\ Some (JInt 12) = Some (JInt (Z.of_nat (length (numbered 12)))).
Proof.
  exact (get_questions_success (mkRequest (Some 2) JNull) (numbered 12) []
           _ eq_refl).
Defined.

(** X4: on a negative page GET /questions answers 404 only when the table has
    at most [10 * |p|] rows; a longer table gives a 200. *)
Theorem get_questions_negative_page (body : json) (db : Store)
  (categories : list Category.t) (p : Z) :
  p < 0 ->
  (get_questions (mkRequest (Some p) body) db categories = not_found
   <-> Z.of_nat (length db) <= - p * 10).
Proof.
  intros Hp. rewrite get_questions_cases.
  change (paginate_questions (mkRequest (Some p) body) db) with (paginate db p).
  destruct (paginate_negative_page db p Hp) as [_ Hlen].
  destruct (paginate db p) as [|x page]; cbn [length] in Hlen.
  - split; [lia | reflexivity].
  - split; [discriminate | lia].
Qed.

Lemma get_questions_negative_page_witness :
  get_questions (mkRequest (Some (-1)) JNull) sample_store sample_categories
  = not_found.
Proof.
  apply (proj2 (get_questions_negative_page JNull sample_store
                  sample_categories (-1) ltac:(lia))).
  vm_compute. discriminate.
Defined.

(** ** Categories *)

Lemma str_inj (j k : Z) : str j = str k -> j = k.
Proof.
  unfold str. intros Heq.
  apply (f_equal DecimalString.NilEmpty.int_of_string) in Heq.
  rewrite !DecimalString.NilEmpty.isi in Heq. injection Heq as Heq.
  apply (f_equal Z.of_int) in Heq. now rewrite !DecimalZ.of_to in Heq.
Qed.

(** Lookup in a dict with integer keys. *)
Lemma dict_get_json_of_dict (d : list (Z * string)) (k : Z) :
  field (json_of_dict d) (str k)
  = option_map (fun kv => JStr (snd kv)) (find (fun kv => fst kv =? k) d).
Proof.
  unfold json_of_dict, field. induction d as [|[k' v'] d IH]; [reflexivity|].
  cbn [map dict_get find fst snd].
  destruct (Z.eqb_spec k' k) as [->|Hne].
  - now rewrite String.eqb_refl.
  - destruct (String.eqb_spec (str k') (str k)) as [Heq|_]; [|exact IH].
    now apply str_inj in Heq.
Qed.

Lemma find_dict_set (d : list (Z * string)) (k j : Z) (v : string) :
  find (fun kv => fst kv =? j) (dict_set d k v)
  = if k =? j then Some (k, v) else find (fun kv => fst kv =? j) d.
Proof.
  induction d as [|[k' v'] d IH]; cbn [dict_set find fst].
  - now destruct (k =? j).
  - destruct (Z.eqb_spec k' k) as [->|Hne]; cbn [find fst].
    + now destruct (k =? j).
    + rewrite IH. destruct (Z.eqb_spec k' j) as [->|_]; [|reflexivity].
      destruct (Z.eqb_spec k j); [lia | reflexivity].
Qed.

(** The dict built by the loop holds, for every id, the label of the last
    category of the selection with that id. *)
Lemma find_category_dict (selection : list Category.t) (j : Z) :
  find (fun kv => fst kv =? j) (category_dict selection)
  = option_map (fun c => (Category.id c, Category.type c))
               (find (fun c => Category.id c =? j) (rev selection)).
Proof.
  unfold category_dict. rewrite <- fold_left_rev_right.
  induction (rev selection) as [|c l IH]; [reflexivity|].
  cbn [fold_right find]. rewrite find_dict_set, IH.
  now destruct (Category.id c =? j).
Qed.

Lemma find_unique_id (l : list Category.t) (c : Category.t) :
  NoDup (map Category.id l) -> In c l ->
  find (fun d => Category.id d =? Category.id c) l = Some c.
Proof.
  induction l as [|d l IH]; intros Hnodup Hin; [easy|].
  cbn [map] in Hnodup. inversion Hnodup as [|? ? Hfresh Hrest]; subst.
  cbn [find]. destruct Hin as [->|Hin].
  - now rewrite Z.eqb_refl.
  - destruct (Z.eqb_spec (Category.id d) (Category.id c)) as [Heq|_];
      [|now apply IH].
    exfalso. apply Hfresh. rewrite Heq. now apply in_map.
Qed.

Lemma find_absent_id (l : list Category.t) (j : Z) :
  (forall c, In c l -> Category.id c <> j) ->
  find (fun d => Category.id d =? j) l = None.
Proof.
  intros Habsent. destruct (find _ l) as [c|] eqn:Hfind; [|reflexivity].
  apply find_some in Hfind as [Hin Heq]. apply Z.eqb_eq in Heq.
  now apply Habsent in Hin.
Qed.

Lemma insert_category_perm (c : Category.t) (l : list Category.t) :
  Permutation (insert_category c l) (c :: l).
Proof.
  induction l as [|d l IH]; cbn [insert_category]; [reflexivity|].
  destruct (Category.id c <? Category.id d); [reflexivity|].
  rewrite IH. apply perm_swap.
Qed.

Lemma order_categories_perm (l : list Category.t) :
  Permutation (order_categories l) l.
Proof.
  induction l as [|c l IH]; cbn [order_categories fold_right]; [reflexivity|].
  fold (order_categories l). rewrite insert_category_perm. now constructor.
Qed.

(** Looking up a label in a dict of categories with distinct ids. *)
Lemma category_dict_lookup (selection : list Category.t) :
  NoDup (map Category.id selection) ->
  (forall c, In c selection ->
             field (json_of_dict (category_dict selection)) (str (Category.id c))
             = Some (JStr (Category.type c)))
  /\ (forall j, (forall c, In c selection -> Category.id c <> j) ->
                field (json_of_dict (category_dict selection)) (str j) = None).
Proof.
  intros Hnodup.
  assert (Hrev : NoDup (map Category.id (rev selection))).
  { rewrite map_rev. eapply Permutation_NoDup; [apply Permutation_rev|exact Hnodup]. }
  split.
  - intros c Hin. rewrite dict_get_json_of_dict, find_category_dict.
    rewrite find_unique_id; [reflexivity | exact Hrev | now apply in_rev in Hin].
  - intros j Habsent. rewrite dict_get_json_of_dict, find_category_dict.
    rewrite find_absent_id; [reflexivity|].
    intros c Hin. apply Habsent. now apply in_rev.
Qed.

(** X5: GET /categories always answers 200; with distinct category ids the
    [categories] object maps the decimal id of every category to its label
    and has no other key. *)
Theorem get_categories_lookup (categories : list Category.t) :
  NoDup (map Category.id categories) ->
  exists cats,
    get_categories categories
    = Resp (JObj [("success", JBool true); ("categories", cats)]) 200
    /\ (forall c, In c categories ->
                  field cats (str (Category.id c)) = Some (JStr (Category.type c)))
    /\ (forall j, (forall c, In c categories -> Category.id c <> j) ->
                  field cats (str j) = None).
Proof.
  intros Hnodup. eexists. split; [reflexivity|].
  pose proof (order_categories_perm categories) as Hperm.
  destruct (category_dict_lookup (order_categories categories)) as [Hin Hout].
  { eapply Permutation_NoDup; [|exact Hnodup].
    apply Permutation_map. now symmetry. }
  split.
  - intros c Hc. apply Hin. eapply Permutation_in; [symmetry; exact Hperm|exact Hc].
  - intros j Habsent. apply Hout. intros c Hc. apply Habsent.
    eapply Permutation_in; [exact Hperm | exact Hc].
Qed.

Lemma get_categories_lookup_witness :
  exists cats,
    get_categories sample_categories
    = Resp (JObj [("success", JBool true); ("categories", cats)]) 200
    /\ field cats "5" = Some (JStr "Entertainment")
    /\ field cats "7" = None.
Proof.
  assert (Hnodup : NoDup (map Category.id sample_categories)).
  { repeat constructor; simpl; intuition discriminate. }
  destruct (get_categories_lookup sample_categories Hnodup)
    as (cats & Heq & Hin & Hout).
  exists cats. split; [exact Heq|]. split.
  - apply (Hin (Category.mk 5 "Entertainment")). simpl. auto.
  - apply (Hout 7). simpl. intros c Hc.
    repeat (destruct Hc as [<-|Hc]; [discriminate|]). destruct Hc.
Defined.

Lemma filter_none {A : Type} (f : A -> bool) (l : list A) :
  (forall x, In x l -> f x = false) -> filter f l = [].
Proof.
  induction l as [|x l IH]; intros Hall; [reflexivity|].
  cbn [filter]. rewrite (Hall x (or_introl eq_refl)).
  apply IH. intros y Hy. apply Hall. now right.
Qed.

Lemma filter_unique_id (l : list Category.t) (c : Category.t) :
  NoDup (map Category.id l) -> In c l ->
  filter (fun d => Category.id d =? Category.id c) l = [c].
Proof.
  induction l as [|d l IH]; intros Hnodup Hin; [easy|].
  cbn [map] in Hnodup. inversion Hnodup as [|? ? Hfresh Hrest]; subst.
  cbn [filter]. destruct Hin as [->|Hin].
  - rewrite Z.eqb_refl. f_equal. apply filter_none.
    intros d Hd. apply Z.eqb_neq. intros Heq.
    apply Hfresh. rewrite <- Heq. now apply in_map.
  - destruct (Z.eqb_spec (Category.id d) (Category.id c)) as [Heq|_];
      [|now apply IH].
    exfalso. apply Hfresh. rewrite Heq. now apply in_map.
Qed.

(** X6: GET /categories/<id>/questions for an id that no category has answers
    404. *)
Theorem get_question_by_category_unknown (request : Request) (i : Z)
  (db : Store) (categories : list Category.t) :
  (forall c, In c categories -> Category.id c <> i) ->
  get_question_by_category request i db categories = not_found.
Proof.
  intros Habsent. unfold get_question_by_category, one_or_none.
  replace (filter (fun c => Category.id c =? i) categories) with (@nil Category.t);
    [reflexivity|].
  symmetry. apply filter_none.
  intros c Hc. apply Z.eqb_neq. now apply Habsent.
Qed.

Lemma get_question_by_category_unknown_witness :
  get_question_by_category (mkRequest None JNull) 100 sample_store
    sample_categories
  = not_found.
Proof.
  apply get_question_by_category_unknown. simpl. intros c Hc.
  repeat (destruct Hc as [<-|Hc]; [discriminate|]). destruct Hc.
Defined.

(** X7: for a category that exists the answer is a 200 with the label of the
    category and the requested page of its questions, in store order; a
    category without questions, or a page past the end, gives a 200 with
    an empty list, not a 404. *)
Theorem get_question_by_category_known (request : Request) (db : Store)
  (categories : list Category.t) (c : Category.t) :
  NoDup (map Category.id categories) ->
  In c categories ->
  get_question_by_category request (Category.id c) db categories
  = Resp (JObj [("success", JBool true);
                ("questions",
                 JArr (paginate_questions request
                         (filter (fun q => category q =? Category.id c) db)));
                ("current_category", JStr (Category.type c))]) 200.
Proof.
  intros Hnodup Hin. unfold get_question_by_category, one_or_none.
  rewrite (filter_unique_id _ _ Hnodup Hin). reflexivity.
Qed.

Lemma get_question_by_category_known_witness :
  get_question_by_category (mkRequest None JNull) 6 sample_store
    sample_categories
  = Resp (JObj [("success", JBool true); ("questions", JArr []);
                ("current_category", JStr "Sports")]) 200.
Proof.
  apply (get_question_by_category_known (mkRequest None JNull) sample_store
           sample_categories (Category.mk 6 "Sports")).
  - repeat constructor; simpl; intuition discriminate.
  - simpl. auto.
Defined.

(** ** Deleting *)

Lemma query_get_some (db : Store) (i : Z) (q : Question) :
  query_get db i = Some q -> In q db /\ id q = i.
Proof.
  unfold query_get. intros Hfind. apply find_some in Hfind as [Hin Heq].
  now apply Z.eqb_eq in Heq.
Qed.

Lemma delete_In (q : Question) (db : Store) (r : Question) :
  In r (delete q db) <-> In r db /\ id r <> id q.
Proof.
  unfold delete. rewrite filter_In, negb_true_iff, Z.eqb_neq. tauto.
Qed.

(** X8: a delete of an id that is in the table answers 200 with that id, takes
    away the rows of that id and no other, and makes the id unknown: a
    second delete of it answers 422 and changes nothing. *)
Theorem delete_questions_existing (request : Request) (i : Z) (db : Store)
  (q : Question) :
  query_get db i = Some q ->
  exists payload db',
    delete_questions request i db = (Resp payload 200, db')
    /\ field payload "deleted" = Some (JInt i)
    /\ (forall r, In r db' <-> In r db /\ id r <> i)
    /\ query_get db' i = None
    /\ (forall request', delete_questions request' i db' = (unprocessable, db')).
Proof.
  intros Hget. destruct (query_get_some _ _ _ Hget) as [Hin Hid].
  pose proof (delete_questions_cases request i db) as Hcases.
  rewrite Hget in Hcases.
  assert (Hgone : query_get (delete q db) i = None).
  { apply query_get_none. intros r Hr. apply delete_In in Hr. lia. }
  eexists. exists (delete q db). split; [|split; [|split; [|split]]].
  - unfold delete_questions. rewrite Hget. reflexivity.
  - reflexivity.
  - intros r. rewrite delete_In, Hid. reflexivity.
  - exact Hgone.
  - intros request'.
    pose proof (delete_questions_cases request' i (delete q db)) as Hagain.
    now rewrite Hgone in Hagain.
Qed.

Lemma delete_questions_existing_witness :
  exists payload db',
    delete_questions (mkRequest None JNull) 5 sample_store
    = (Resp payload 200, db')
    /\ field payload "deleted" = Some (JInt 5)
    /\ (forall r, In r db' <-> In r sample_store /\ id r <> 5)
    /\ query_get db' 5 = None
    /\ (forall request', delete_questions request' 5 db' = (unprocessable, db')).
Proof.
  exact (delete_questions_existing (mkRequest None JNull) 5 sample_store
           (mkQuestion 5 "What is the title of the first film?" "Unknown" 5 3)
           eq_refl).
Defined.

Lemma delete_length (q : Question) (db : Store) :
  NoDup (map id db) -> In q db ->
  S (length (delete q db)) = length db.
Proof.
  unfold delete. induction db as [|r db IH]; intros Hnodup Hin; [easy|].
  cbn [map] in Hnodup. inversion Hnodup as [|? ? Hfresh Hrest]; subst.
  cbn [filter length]. destruct Hin as [->|Hin].
  - rewrite Z.eqb_refl. cbn [negb]. f_equal.
    rewrite (proj2 (filter_ext_in_iff _ (fun _ => true) db)).
    + now rewrite filter_true.
    + intros r Hr. apply negb_true_iff, Z.eqb_neq. intros Heq.
      apply Hfresh. rewrite <- Heq. now apply in_map.
  - destruct (Z.eqb_spec (id r) (id q)) as [Heq|_].
    + exfalso. apply Hfresh. rewrite Heq. now apply in_map.
    + cbn [negb length]. f_equal. now apply IH.
Qed.

(** X9: when the ids of the table are distinct a delete takes away exactly one
    row, and [total_questions] in the answer is the old size less one. *)
Theorem delete_questions_total (request : Request) (i : Z) (db : Store)
  (q : Question) :
  NoDup (map id db) ->
  query_get db i = Some q ->
  exists payload db',
    delete_questions request i db = (Resp payload 200, db')
    /\ Z.of_nat (length db') = Z.of_nat (length db) - 1
    /\ field payload "total_questions" = Some (JInt (Z.of_nat (length db) - 1)).
Proof.
  intros Hnodup Hget. destruct (query_get_some _ _ _ Hget) as [Hin _].
  pose proof (delete_length q db Hnodup Hin) as Hlen.
  eexists. exists (delete q db). split; [|split].
  - unfold delete_questions. rewrite Hget. reflexivity.
  - lia.
  - cbn [field dict_get String.eqb Ascii.eqb Bool.eqb]. unfold query_all.
    do 2 f_equal. lia.
Qed.

Lemma delete_questions_total_witness :
  exists payload db',
    delete_questions (mkRequest None JNull) 5 sample_store
    = (Resp payload 200, db')
    /\ Z.of_nat (length db') = 3
    /\ field payload "total_questions" = Some (JInt 3).
Proof.
  refine (delete_questions_total (mkRequest None JNull) 5 sample_store
            (mkQuestion 5 "What is the title of the first film?" "Unknown" 5 3)
            _ eq_refl).
  repeat constructor; simpl; intuition discriminate.
Defined.

(** [order_by(Question.id)] gives the same rows in ascending order of id. *)
Lemma insert_by_id_perm (q : Question) (l : list Question) :
  Permutation (insert_by_id q l) (q :: l).
Proof.
  induction l as [|r l IH]; cbn [insert_by_id]; [reflexivity|].
  destruct (id q <? id r); [reflexivity|]. rewrite IH. apply perm_swap.
Qed.

Lemma order_by_id_perm (l : list Question) : Permutation (order_by_id l) l.
Proof.
  induction l as [|q l IH]; cbn [order_by_id fold_right]; [reflexivity|].
  fold (order_by_id l). rewrite insert_by_id_perm. now constructor.
Qed.

Lemma insert_by_id_sorted (q : Question) (l : list Question) :
  StronglySorted id_le l -> StronglySorted id_le (insert_by_id q l).
Proof.
  induction 1 as [|r l Hsorted IH Hall]; cbn [insert_by_id].
  - repeat constructor.
  - destruct (Z.ltb_spec (id q) (id r)) as [Hlt|Hge].
    + constructor; [now constructor|]. constructor; [unfold id_le; lia|].
      eapply Forall_impl; [|exact Hall]. unfold id_le. intros; lia.
    + constructor; [exact IH|].
      eapply Permutation_Forall; [symmetry; apply insert_by_id_perm|].
      constructor; [unfold id_le; lia | exact Hall].
Qed.

Lemma order_by_id_sorted (l : list Question) :
  StronglySorted id_le (order_by_id l).
Proof.
  induction l as [|q l IH]; cbn [order_by_id fold_right]; [constructor|].
  now apply insert_by_id_sorted.
Qed.

Lemma StronglySorted_infix {A : Type} (R : A -> A -> Prop)
  (before page after : list A) :
  StronglySorted R (before ++ page ++ after) -> StronglySorted R page.
Proof.
  induction before as [|x before IH]; cbn [app].
  - induction page as [|y page IHp]; cbn [app]; intros Hs; [constructor|].
    inversion Hs as [|? ? Hrest Hall]; subst. constructor; [now apply IHp|].
    apply Forall_app in Hall. tauto.
  - intros Hs. inversion Hs; subst. now apply IH.
Qed.

(** X10: the questions listed in the answer to a delete are at most ten of the
    remaining rows, in ascending order of id, none with the deleted id. *)
Theorem delete_questions_listing (request : Request) (i : Z) (db : Store)
  (q : Question) :
  query_get db i = Some q ->
  exists payload page,
    fst (delete_questions request i db) = Resp payload 200
    /\ field payload "questions" = Some (JArr (map format page))
    /\ (length page <= 10)%nat
    /\ StronglySorted id_le page
    /\ (forall r, In r page -> In r db /\ id r <> i).
Proof.
  intros Hget. destruct (query_get_some _ _ _ Hget) as [_ Hid].
  destruct (paginate_questions_rows request (order_by_id (delete q db)))
    as (before & page & after & Hrows & Hlen & Hpage).
  eexists. exists page. split; [|split; [|split; [|split]]].
  - unfold delete_questions. rewrite Hget. reflexivity.
  - cbn [field dict_get String.eqb Ascii.eqb Bool.eqb]. unfold query_all.
    now rewrite Hpage.
  - exact Hlen.
  - apply (StronglySorted_infix _ before page after). rewrite <- Hrows.
    apply order_by_id_sorted.
  - intros r Hr. rewrite <- Hid. apply delete_In.
    eapply Permutation_in; [apply order_by_id_perm|].
    rewrite Hrows, !in_app_iff. auto.
Qed.

Lemma delete_questions_listing_witness :
  exists payload page,
    fst (delete_questions (mkRequest None JNull) 5 sample_store)
    = Resp payload 200
    /\ field payload "questions" = Some (JArr (map format page))
    /\ (length page <= 10)%nat
    /\ StronglySorted id_le page
    /\ (forall r, In r page -> In r sample_store /\ id r <> 5).
Proof.
  exact (delete_questions_listing (mkRequest None JNull) 5 sample_store
           (mkQuestion 5 "What is the title of the first film?" "Unknown" 5 3)
           eq_refl).
Defined.

(** ** Creating *)

(** The answers to a create request whose body was decoded. *)
Lemma add_questions_decoded
  (insert : json -> json -> json -> json -> Store -> option (Z * Store))
  (request : Request) (db : Store) :
  (exists body new_id db',
      get_json request = JObj body /\ body <> []
      /\ insert (get_or_none body "question") (get_or_none body "answer")
                (get_or_none body "category") (get_or_none body "difficulty") db
         = Some (new_id, db')
      /\ add_questions insert request db
         = (Resp (JObj [("success", JBool true); ("created", JInt new_id);
                        ("total_questions", JInt (Z.of_nat (length db')))]) 200,
            db'))
  \/ (add_questions insert request db = (unprocessable, db)
      /\ exists body,
          get_json request = JObj body
          /\ (body = []
              \/ insert (get_or_none body "question") (get_or_none body "answer")
                        (get_or_none body "category")
                        (get_or_none body "difficulty") db
                 = None))
  \/ (add_questions insert request db = (InternalServerError, db)
      /\ forall body, get_json request <> JObj body).
Proof.
  unfold add_questions.
  destruct (get_json request) as [| | | | |body];
    try (right; right; split; [reflexivity | discriminate]).
  destruct body as [|kv body]; [right; left; split; eauto|].
  destruct (insert _ _ _ _ db) as [[new_id db']|] eqn:Hins.
  - left. exists (kv :: body), new_id, db'.
    repeat split; [discriminate | exact Hins].
  - right. left. split; eauto.
Qed.

(** X11: the answer to a create request tells what was sent: it is the 400
    exactly when the body is not JSON, a server error exactly when the body
    is JSON but not an object, the 422 exactly when the body is the empty
    object or the store refuses the row, and otherwise a 200 with the id
    the store assigned and the size of the table the store made; any answer
    but the 200 leaves the table as it was. *)
Theorem add_questions_outcomes
  (insert : json -> json -> json -> json -> Store -> option (Z * Store))
  (page : option Z) (sent : sent_body) (db : Store) :
  (fst (add_questions_sent insert page sent db) = bad_request
   <-> sent = NotJson)
  /\ (fst (add_questions_sent insert page sent db) = InternalServerError
      <-> exists j, sent = Json j /\ forall body, j <> JObj body)
  /\ (fst (add_questions_sent insert page sent db) = unprocessable
      <-> exists body,
          sent = Json (JObj body)
          /\ (body = []
              \/ insert (get_or_none body "question") (get_or_none body "answer")
                        (get_or_none body "category")
                        (get_or_none body "difficulty") db
                 = None))
  /\ (is_error (fst (add_questions_sent insert page sent db)) = false
      <-> exists body new_id db',
          sent = Json (JObj body) /\ body <> []
          /\ insert (get_or_none body "question") (get_or_none body "answer")
                    (get_or_none body "category")
                    (get_or_none body "difficulty") db
             = Some (new_id, db')
          /\ add_questions_sent insert page sent db
             = (Resp (JObj [("success", JBool true); ("created", JInt new_id);
                            ("total_questions",
                             JInt (Z.of_nat (length db')))]) 200,
                db'))
  /\ (is_error (fst (add_questions_sent insert page sent db)) = true ->
      snd (add_questions_sent insert page sent db) = db).
Proof.
  destruct sent as [|j]; cbn [add_questions_sent].
  - cbn. repeat split; try discriminate; try reflexivity.
    + intros (j & Hj & _). discriminate.
    + intros (body & Hj & _). discriminate.
    + intros (body & i & db' & Hj & _). discriminate.
  - destruct (add_questions_decoded insert (mkRequest page j) db)
      as [(body & i & db' & Hj & Hne & Hins & ->)
         |[(-> & body & Hj & Hwhy) | (-> & Hnot)]];
      cbn [get_json] in *; cbn [fst snd is_error].
    + subst j. repeat split; try discriminate.
      * intros (j & [= <-] & Hnot). now specialize (Hnot body).
      * intros (body' & [= <-] & [->|Hnone]); [easy | congruence].
      * intros _. exists body, i, db'. auto.
    + subst j. repeat split; try discriminate; try reflexivity.
      * intros (j & [= <-] & Hnot). now specialize (Hnot body).
      * intros _. eauto.
      * intros (body' & i & db' & [= <-] & Hne & Hins & _).
        destruct Hwhy as [->|Hnone]; [easy | congruence].
    + repeat split; try discriminate; try reflexivity.
      * intros _. eauto.
      * intros (body & [= ->] & _). now specialize (Hnot body).
      * intros (body & i & db' & [= ->] & _). now specialize (Hnot body).
Qed.

(** X12: only the empty object is caught by the guard: a body that has keys but
    none of [question], [answer], [category] and [difficulty] is handed to
    the store as a row of four [None], and the answer is the store's. *)
Theorem add_questions_unknown_keys
  (insert : json -> json -> json -> json -> Store -> option (Z * Store))
  (request : Request) (db : Store) (body : list (string * json)) :
  get_json request = JObj body ->
  body <> [] ->
  dict_get body "question" = None ->
  dict_get body "answer" = None ->
  dict_get body "category" = None ->
  dict_get body "difficulty" = None ->
  add_questions insert request db
  = match insert JNull JNull JNull JNull db with
    | Some (new_id, db') =>
        (Resp (JObj [("success", JBool true); ("created", JInt new_id);
                     ("total_questions", JInt (Z.of_nat (length db')))]) 200,
         db')
    | None => (unprocessable, db)
    end.
Proof.
  intros Hbody Hne Hq Ha Hc Hd. unfold add_questions, get_or_none.
  rewrite Hbody, Hq, Ha, Hc, Hd. destruct body as [|kv body]; [easy|].
  destruct (insert JNull JNull JNull JNull db) as [[new_id db']|]; reflexivity.
Qed.

Lemma add_questions_unknown_keys_witness :
  add_questions typed_insert
    (mkRequest None (JObj [("searchTerm", JStr "title")])) sample_store
  = (unprocessable, sample_store).
Proof.
  apply (add_questions_unknown_keys typed_insert
           (mkRequest None (JObj [("searchTerm", JStr "title")])) sample_store
           [("searchTerm", JStr "title")]); try reflexivity.
  discriminate.
Defined.

(** ** Searching *)

(** X13: a search request in which the term is the empty string, is missing, or
    is not a string is answered with 404 whatever the table holds; a body
    that is not an object is a server error. *)
Theorem search_questions_bad_term (request : Request) (db : Store) :
  (forall body,
      get_json request = JObj body ->
      (dict_get body "searchTerm" = Some (JStr "")
       \/ dict_get body "searchTerm" = None
       \/ (forall s, dict_get body "searchTerm" <> Some (JStr s))) ->
      search_questions request db = not_found)
  /\ ((forall body, get_json request <> JObj body) ->
      search_questions request db = InternalServerError).
Proof.
  unfold search_questions, get_or_none. split.
  - intros body -> [-> | [-> | Hother]]; try reflexivity.
    destruct (dict_get body "searchTerm") as [[| | |s|l|m]|]; try reflexivity.
    + now specialize (Hother s).
    + cbn [py_len bind]. destruct (negb _); reflexivity.
    + cbn [py_len bind]. destruct (negb _); reflexivity.
  - intros Hnot. destruct (get_json request) as [| | | | |body]; try reflexivity.
    now specialize (Hnot body).
Qed.

Lemma search_questions_bad_term_witness :
  search_questions (mkRequest None (JObj [("searchTerm", JStr "")])) sample_store
  = not_found
  /\ search_questions (mkRequest None (JObj [])) sample_store = not_found
  /\ search_questions (mkRequest None (JArr [])) sample_store
     = InternalServerError.
Proof.
  split; [|split].
  - apply (proj1 (search_questions_bad_term
                    (mkRequest None (JObj [("searchTerm", JStr "")]))
                    sample_store) [("searchTerm", JStr "")] eq_refl).
    left. reflexivity.
  - apply (proj1 (search_questions_bad_term (mkRequest None (JObj []))
                    sample_store) [] eq_refl).
    right. left. reflexivity.
  - apply (proj2 (search_questions_bad_term (mkRequest None (JArr []))
                    sample_store)).
    discriminate.
Defined.

Lemma lower_idempotent (c : ascii) : lower (lower c) = lower c.
Proof. destruct c as [[] [] [] [] [] [] [] []]; reflexivity. Qed.

Lemma lower_special (c : ascii) :
  Ascii.eqb (lower c) "\" = Ascii.eqb c "\"
  /\ Ascii.eqb (lower c) "%" = Ascii.eqb c "%"
  /\ Ascii.eqb (lower c) "_" = Ascii.eqb c "_".
Proof. destruct c as [[] [] [] [] [] [] [] []]; repeat split. Qed.

(** Tokens with their literal characters in lower case. *)
Lemma like_tokens_lowercase (p : string) :
  like_tokens (lowercase p)
  = option_map (map (fun t => match t with
                              | LChar c => LChar (lower c)
                              | _ => t
                              end))
               (like_tokens p).
Proof.
  assert (Hstep : forall n p, (String.length p < n)%nat ->
            like_tokens (lowercase p)
            = option_map (map (fun t => match t with
                                        | LChar c => LChar (lower c)
                                        | _ => t
                                        end))
                         (like_tokens p)).
  { clear p. induction n as [|n IH]; intros p Hlen; [lia|].
    destruct p as [|c p]; [reflexivity|]. cbn [String.length] in Hlen.
    cbn [lowercase like_tokens].
    destruct (lower_special c) as (-> & -> & ->).
    destruct (Ascii.eqb c "\").
    - destruct p as [|d p]; [reflexivity|]. cbn [lowercase String.length] in *.
      rewrite IH by lia. now destruct (like_tokens p).
    - rewrite IH by lia.
      destruct (Ascii.eqb c "%"); [now destruct (like_tokens p)|].
      destruct (Ascii.eqb c "_"); now destruct (like_tokens p). }
  apply (Hstep (S (String.length p))). lia.
Qed.

Lemma like_match_lower_tokens (ts : list like_token) : forall s,
  like_match (map (fun t => match t with
                            | LChar c => LChar (lower c)
                            | _ => t
                            end) ts) s
  = like_match ts s.
Proof.
  induction ts as [|[| |c] ts IH]; intros s; cbn [map].
  - reflexivity.
  - induction s as [|d s IHs].
    + now rewrite !like_match_any, IH.
    + rewrite (like_match_any _ (String d s)), IH, IHs.
      now rewrite (like_match_any ts (String d s)).
  - destruct s; cbn [like_match]; [reflexivity | apply IH].
  - destruct s as [|d s]; cbn [like_match]; [reflexivity|].
    now rewrite lower_idempotent, IH.
Qed.

Lemma like_match_lowercase (ts : list like_token) : forall s,
  like_match ts (lowercase s) = like_match ts s.
Proof.
  induction ts as [|[| |c] ts IH]; intros s.
  - now destruct s.
  - induction s as [|d s IHs].
    + now rewrite !like_match_any, IH.
    + cbn [lowercase]. rewrite (like_match_any ts (String (lower d) _)).
      rewrite IHs. change (String (lower d) (lowercase s))
        with (lowercase (String d s)).
      now rewrite IH, (like_match_any ts (String d s)).
  - destruct s; cbn [lowercase like_match]; [reflexivity | apply IH].
  - destruct s as [|d s]; cbn [lowercase like_match]; [reflexivity|].
    now rewrite lower_idempotent, IH.
Qed.

Lemma lowercase_app (s t : string) :
  lowercase (s ++ t) = (lowercase s ++ lowercase t)%string.
Proof. induction s as [|c s IH]; cbn; [reflexivity | now rewrite IH]. Qed.

(** X16: the search does not depend on the letter case of the term: a term and
    its lower-case form find the same rows. *)
Theorem search_case_of_term (items : list Question) (term : string) :
  search items (lowercase term) = search items term.
Proof.
  unfold search, filter_ilike.
  change ("%" ++ lowercase term ++ "%")%string
    with (lowercase "%" ++ lowercase term ++ lowercase "%")%string.
  rewrite <- !lowercase_app, like_tokens_lowercase.
  destruct (like_tokens ("%" ++ term ++ "%")) as [ts|]; [|reflexivity].
  cbn [option_map]. f_equal. apply filter_ext. intros q.
  apply like_match_lower_tokens.
Qed.

(** X17: the search does not depend on the letter case of the question
    texts: on the table with every text in lower case it finds the same
    rows. *)
Theorem search_case_of_text (items : list Question) (term : string) :
  search (map lower_text items) term
  = (found <- search items term ;; Return (map lower_text found)).
Proof.
  unfold search, filter_ilike.
  destruct (like_tokens ("%" ++ term ++ "%")) as [ts|]; [|reflexivity].
  cbn [bind]. f_equal. induction items as [|q items IH]; [reflexivity|].
  cbn [map filter lower_text question]. rewrite like_match_lowercase, IH.
  now destruct (like_match ts (question q)).
Qed.

(** X14: for a non-empty term without [%], [_] and backslash the search
    endpoint answers with exactly the rows whose text contains the term,
    letter case aside, in store order and all at once (no paging), and with
    404 when there is none. *)
Theorem search_questions_plain_term (request : Request) (db : Store)
  (body : list (string * json)) (term : string) :
  get_json request = JObj body ->
  dict_get body "searchTerm" = Some (JStr term) ->
  term <> "" ->
  plain_term term = true ->
  search_questions request db
  = match filter (fun q => contains_ci term (question q)) db with
    | [] => not_found
    | found =>
        Resp (JObj [("success", JBool true);
                    ("questions", JArr (map format found));
                    ("total_questions", JInt (Z.of_nat (length found)));
                    ("current_category", JNull)]) 200
    end.
Proof.
  intros Hbody Hterm Hne Hplain. unfold search_questions, get_or_none.
  rewrite Hbody, Hterm. cbn [py_len bind].
  destruct term as [|c term]; [easy|]. cbn [String.length].
  destruct (Z.eqb_spec (Z.of_nat (S (String.length term))) 0) as [|_]; [lia|].
  cbn [negb py_wrap bind]. fold (search db (String c term)).
  rewrite (search_plain_term _ _ Hplain). cbn [bind].
  now destruct (filter _ db).
Qed.

Lemma search_questions_plain_term_witness :
  search_questions (mkRequest None (JObj [("searchTerm", JStr "CAPITAL")]))
    sample_store
  = Resp (JObj [("success", JBool true);
                ("questions",
                 JArr [format (mkQuestion 2 "What is the capital of France?"
                                 "Paris" 5 1)]);
                ("total_questions", JInt 1);
                ("current_category", JNull)]) 200.
Proof.
  apply (search_questions_plain_term
           (mkRequest None (JObj [("searchTerm", JStr "CAPITAL")])) sample_store
           [("searchTerm", JStr "CAPITAL")] "CAPITAL");
    [reflexivity | reflexivity | discriminate | reflexivity].
Defined.

(** X15: a search request whose body is an object is answered with a 200
    or with 404, whatever the term: the pattern built around a term is
    never refused by the database, and every other failure is caught. *)
Theorem search_questions_answers (request : Request) (db : Store)
  (body : list (string * json)) :
  get_json request = JObj body ->
  search_questions request db = not_found
  \/ exists payload, search_questions request db = Resp payload 200.
Proof.
  intros Hbody. unfold search_questions. rewrite Hbody.
  destruct (get_or_none body "searchTerm") as [| | |term|l|m];
    cbn [py_len bind try_except]; auto.
  - destruct (Z.of_nat (String.length term) =? 0); [now left|].
    cbn [negb py_wrap bind]. fold (search db term).
    destruct (search db term) as [found|e]; [|now left].
    cbn [bind]. destruct found as [|q found]; [now left|].
    right. eexists. reflexivity.
  - destruct (Z.of_nat (length l) =? 0); now left.
  - destruct (Z.of_nat (length m) =? 0); now left.
Qed.

Lemma search_questions_answers_witness :
  search_questions (mkRequest None (JObj [("searchTerm", JStr "\")]))
    sample_store
  = not_found
  \/ exists payload,
      search_questions (mkRequest None (JObj [("searchTerm", JStr "\")]))
        sample_store
      = Resp payload 200.
Proof.
  exact (search_questions_answers
           (mkRequest None (JObj [("searchTerm", JStr "\")])) sample_store
           [("searchTerm", JStr "\")] eq_refl).
Defined.

(** ** Playing *)

(** X18: a body without [quiz_category] or [previous_questions], a body that is
    not an object, and a [quiz_category] that is not an object with an [id]
    are all answered with 400, before anything is drawn. *)
Theorem play_quiz_malformed (int4in : string -> option Z) (rand : nat -> nat)
  (fuel : nat) (request : Request) (db : Store) :
  quiz_inputs request = None ->
  play_quiz int4in rand fuel request db = Some bad_request.
Proof.
  unfold quiz_inputs, play_quiz, play_quiz_try. intros Hnone.
  destruct (get_json request) as [| | | | |body]; try reflexivity.
  destruct (dict_get body "quiz_category") as [category|]; [|reflexivity].
  destruct (dict_get body "previous_questions") as [prev|];
    [|destruct category; reflexivity].
  destruct category as [| | | | |c]; try reflexivity.
  destruct (dict_get c "id"); [discriminate | reflexivity].
Qed.

Lemma play_quiz_malformed_witness :
  play_quiz digit_int4in (fun n => n) 3
    (mkRequest None
       (JObj [("quiz_category", JArr [JInt 19]);
              ("previous_questions",
               JObj [("type", JStr "Entertainment"); ("id", JStr "5")])]))
    sample_store
  = Some bad_request.
Proof. apply play_quiz_malformed. reflexivity. Defined.

Lemma sampling_answers (rand : nat -> nat) questions previous_questions r :
  forall fuel n q,
    sampling rand questions previous_questions fuel n q = Some (Return r) ->
    r = EXHAUSTED \/ r = FOUND q \/ exists q', In q' questions /\ r = FOUND q'.
Proof.
  induction fuel as [|fuel IH]; intros n q; cbn [sampling];
    unfold rbind, lift;
    destruct (check_if_shownbefore previous_questions q) as [[|]|e];
    try discriminate; try (intros [= <-]; now auto).
  destruct (get_random_question rand questions n) as [q1|e] eqn:Hdraw;
    [|discriminate].
  destruct (py_len previous_questions) as [len|e]; [|discriminate].
  destruct (len =? _); [intros [= <-]; now auto|].
  intros Hrec. apply IH in Hrec as [->|[->|(q' & Hin & ->)]]; eauto.
  right. right. exists q1. split; [|reflexivity].
  eapply get_random_question_In, Hdraw.
Qed.

(** X19: whatever the request, an answer of the quiz endpoint is a question, the
    success-only answer, or the 400 error: never a 404, a 422 or a server
    error. *)
Theorem play_quiz_answers (int4in : string -> option Z) (rand : nat -> nat)
  (fuel : nat) (request : Request) (db : Store) (r : Response) :
  play_quiz int4in rand fuel request db = Some r ->
  r = bad_request \/ r = EXHAUSTED \/ exists q, r = FOUND q.
Proof.
  unfold play_quiz.
  destruct (play_quiz_try int4in rand fuel request db) as [[resp|e]|] eqn:Htry;
    cbn [option_map try_except respond abort]; try discriminate;
    [|intros [= <-]; now left].
  intros [= <-]. right. revert Htry. unfold play_quiz_try.
  destruct (get_json request) as [| | | | |body]; try discriminate.
  destruct (dict_get body "quiz_category") as [category|]; [|discriminate].
  destruct (dict_get body "previous_questions") as [prev|]; [|discriminate].
  unfold rbind at 1, lift at 1.
  destruct (match category with JObj c => _ | _ => _ end) as [cid|e];
    [|discriminate].
  unfold rbind at 1, lift at 1.
  destruct (candidate_pool int4in db cid) as [pool|e]; [|discriminate].
  unfold rbind at 1, lift at 1.
  destruct (get_random_question rand pool 0) as [q0|e]; [|discriminate].
  intros Hloop. apply sampling_answers in Hloop as [->|[->|(q' & _ & ->)]]; eauto.
Qed.

Lemma play_quiz_answers_witness :
  EXHAUSTED = bad_request \/ EXHAUSTED = EXHAUSTED
  \/ exists q, EXHAUSTED = FOUND q.
Proof.
  exact (play_quiz_answers digit_int4in (fun n => n) 1
           (quiz_request 5 [2; 5; 9]) sample_store EXHAUSTED eq_refl).
Defined.

Section Draws.

Variable int4in : string -> option Z.
Variable rand : nat -> nat.

Lemma get_random_question_draw pool n q :
  draw rand pool n = Some q -> get_random_question rand pool n = Return q.
Proof.
  unfold draw, get_random_question. intros Hdraw.
  destruct pool as [|x pool]; [now rewrite nth_error_nil in Hdraw|].
  cbn [length] in *. now rewrite Hdraw.
Qed.

Lemma draw_In pool n q : draw rand pool n = Some q -> In q pool.
Proof. unfold draw. apply nth_error_In. Qed.

Lemma play_quiz_sampling fuel request db c ids q0 :
  quiz_inputs request = Some (JInt c, JArr (map JInt ids)) ->
  draw rand (pool_of db c) 0 = Some q0 ->
  play_quiz int4in rand fuel request db
  = option_map (fun r => respond (try_except r (abort 400)))
      (sampling rand (pool_of db c) (JArr (map JInt ids)) fuel 1 q0).
Proof.
  intros Hin Hdraw. unfold play_quiz.
  rewrite (play_quiz_try_inputs _ _ _ _ _ _ _ Hin), candidate_pool_int.
  cbn [lift rbind]. now rewrite (get_random_question_draw _ _ _ Hdraw).
Qed.

Lemma sampling_unseen pool ids fuel n q :
  shown ids q = false ->
  sampling rand pool (JArr (map JInt ids)) fuel n q = Some (Return (FOUND q)).
Proof.
  intros Hfresh. destruct fuel; cbn [sampling];
    rewrite check_if_shownbefore_ids; fold (shown ids q); now rewrite Hfresh.
Qed.

Lemma sampling_redraw pool ids fuel n q q' :
  shown ids q = true ->
  draw rand pool n = Some q' ->
  length ids <> length pool ->
  sampling rand pool (JArr (map JInt ids)) (S fuel) n q
  = sampling rand pool (JArr (map JInt ids)) fuel (S n) q'.
Proof.
  intros Hshown Hdraw Hlen. cbn [sampling].
  rewrite check_if_shownbefore_ids. fold (shown ids q). rewrite Hshown.
  cbn [lift rbind]. rewrite (get_random_question_draw _ _ _ Hdraw).
  cbn [py_len]. rewrite length_map.
  destruct (Z.eqb_spec (Z.of_nat (length ids)) (Z.of_nat (length pool)));
    [lia | reflexivity].
Qed.

Lemma sampling_reaches pool ids q : forall k fuel n qcur,
  shown ids qcur = true ->
  (forall j, (j < k)%nat ->
             exists qj, draw rand pool (n + j) = Some qj /\ shown ids qj = true) ->
  draw rand pool (n + k) = Some q ->
  shown ids q = false ->
  length ids <> length pool ->
  (k < fuel)%nat ->
  sampling rand pool (JArr (map JInt ids)) fuel n qcur
  = Some (Return (FOUND q)).
Proof.
  induction k as [|k IH]; intros fuel n qcur Hcur Hseen Hdraw Hfresh Hlen Hfuel;
    (destruct fuel as [|fuel]; [lia|]).
  - rewrite Nat.add_0_r in Hdraw.
    rewrite (sampling_redraw _ _ _ _ _ _ Hcur Hdraw Hlen).
    now apply sampling_unseen.
  - destruct (Hseen O ltac:(lia)) as (q1 & Hq1 & Hshown1).
    rewrite Nat.add_0_r in Hq1.
    rewrite (sampling_redraw _ _ _ _ _ _ Hcur Hq1 Hlen).
    apply IH; try assumption; try lia.
    + intros j Hj. destruct (Hseen (S j) ltac:(lia)) as (qj & Hqj & Hs).
      exists qj. split; [|exact Hs]. now replace (S n + j)%nat with (n + S j)%nat by lia.
    + now replace (S n + k)%nat with (n + S k)%nat by lia.
Qed.

Lemma sampling_never pool ids :
  (forall q, In q pool -> shown ids q = true) ->
  length ids <> length pool ->
  forall fuel n q, In q pool ->
    sampling rand pool (JArr (map JInt ids)) fuel n q = None.
Proof.
  intros Hall Hlen. induction fuel as [|fuel IH]; intros n q Hq.
  - cbn [sampling]. rewrite check_if_shownbefore_ids. fold (shown ids q).
    now rewrite (Hall q Hq).
  - destruct (get_random_question_total rand pool n) as [q' Hq'].
    { intros ->. destruct Hq. }
    pose proof (get_random_question_In _ _ _ _ Hq') as Hin.
    assert (Hdraw : draw rand pool n = Some q').
    { unfold get_random_question in Hq'. unfold draw.
      destruct (length pool); [discriminate|].
      destruct (nth_error pool _); [congruence | discriminate]. }
    rewrite (sampling_redraw _ _ _ _ _ _ (Hall q Hq) Hdraw Hlen).
    now apply IH.
Qed.

End Draws.

(** X20: when the first draw is a question that was not shown, it is the answer,
    with no redraw; in particular an empty [previous_questions] always gets
    the first draw. *)
Theorem play_quiz_first_draw (int4in : string -> option Z) (rand : nat -> nat)
  (fuel : nat) (request : Request) (db : Store) (c : Z) (ids : list Z)
  (q : Question) :
  quiz_inputs request = Some (JInt c, JArr (map JInt ids)) ->
  draw rand (pool_of db c) 0 = Some q ->
  shown ids q = false ->
  play_quiz int4in rand fuel request db = Some (FOUND q).
Proof.
  intros Hin Hdraw Hfresh.
  rewrite (play_quiz_sampling _ _ _ _ _ _ _ _ Hin Hdraw).
  now rewrite sampling_unseen.
Qed.

Lemma play_quiz_first_draw_witness :
  play_quiz digit_int4in (fun n => 2%nat) 0 (quiz_request 0 []) sample_store
  = Some (FOUND (mkQuestion 5 "What is the title of the first film?" "Unknown" 5 3)).
Proof.
  apply (play_quiz_first_draw digit_int4in (fun n => 2%nat) 0
           (quiz_request 0 []) sample_store 0 []); reflexivity.
Defined.

(** X21: when [len(previous_questions)] differs from the size of the pool, the
    answer is the first drawn question that was not shown before: if that
    is draw number [k], then [k] turns of the loop give it. *)
Theorem play_quiz_reaches (int4in : string -> option Z) (rand : nat -> nat)
  (fuel : nat) (request : Request) (db : Store) (c : Z) (ids : list Z)
  (k : nat) (q : Question) :
  quiz_inputs request = Some (JInt c, JArr (map JInt ids)) ->
  length ids <> length (pool_of db c) ->
  (forall j, (j < k)%nat ->
             exists qj, draw rand (pool_of db c) j = Some qj
                        /\ shown ids qj = true) ->
  draw rand (pool_of db c) k = Some q ->
  shown ids q = false ->
  (k <= fuel)%nat ->
  play_quiz int4in rand fuel request db = Some (FOUND q).
Proof.
  intros Hin Hlen Hseen Hdraw Hfresh Hfuel. destruct k as [|k].
  - now apply (play_quiz_first_draw _ _ _ _ _ c ids).
  - destruct (Hseen O ltac:(lia)) as (q0 & Hq0 & Hshown0).
    rewrite (play_quiz_sampling _ _ _ _ _ _ _ _ Hin Hq0).
    rewrite (sampling_reaches rand (pool_of db c) ids q k fuel 1 q0);
      try assumption; try reflexivity; try lia.
    intros j Hj. apply (Hseen (S j)). lia.
Qed.

Lemma play_quiz_reaches_witness :
  play_quiz digit_int4in (fun n => n) 2 (quiz_request 5 [2; 5]) sample_store
  = Some (FOUND (mkQuestion 9 "abc" "letters" 5 1)).
Proof.
  apply (play_quiz_reaches digit_int4in (fun n => n) 2 (quiz_request 5 [2; 5])
           sample_store 5 [2; 5] 2);
    [reflexivity | discriminate | | reflexivity | reflexivity | lia].
  intros [|[|j]] Hj; [eexists; split; reflexivity .. | lia].
Defined.

(** X22: when every question of the pool has been shown but
    [len(previous_questions)] is not the size of the pool (an id of another
    category, or an id listed twice), the loop never ends: no number of
    turns gives an answer. *)
Theorem play_quiz_never_answers (int4in : string -> option Z)
  (rand : nat -> nat) (request : Request) (db : Store) (c : Z) (ids : list Z) :
  quiz_inputs request = Some (JInt c, JArr (map JInt ids)) ->
  pool_of db c <> [] ->
  (forall q, In q (pool_of db c) -> In (id q) ids) ->
  length ids <> length (pool_of db c) ->
  forall fuel, play_quiz int4in rand fuel request db = None.
Proof.
  intros Hin Hne Hall Hlen fuel.
  destruct (get_random_question_total rand (pool_of db c) 0 Hne) as [q0 Hq0].
  pose proof (get_random_question_In _ _ _ _ Hq0) as Hin0.
  unfold play_quiz.
  rewrite (play_quiz_try_inputs _ _ _ _ _ _ _ Hin), candidate_pool_int.
  cbn [lift rbind]. rewrite Hq0.
  rewrite sampling_never; try assumption; [reflexivity|].
  intros q Hq. apply existsb_exists. exists (id q).
  split; [now apply Hall | apply Z.eqb_refl].
Qed.

Lemma play_quiz_never_answers_witness :
  play_quiz digit_int4in (fun n => n) 1000 (quiz_request 5 [2; 5; 9; 4])
    sample_store
  = None.
Proof.
  apply (play_quiz_never_answers digit_int4in (fun n => n)
           (quiz_request 5 [2; 5; 9; 4]) sample_store 5 [2; 5; 9; 4]).
  - reflexivity.
  - discriminate.
  - intros q Hq. simpl in Hq.
    repeat (destruct Hq as [<-|Hq]; [simpl; tauto|]). destruct Hq.
  - discriminate.
Defined.

(** X23: the success-only answer is given only when [len(previous_questions)] is
    the size of the pool and the first draw was a question shown before. *)
Theorem play_quiz_exhausted_only (int4in : string -> option Z)
  (rand : nat -> nat) (fuel : nat) (request : Request) (db : Store) (c : Z)
  (ids : list Z) :
  quiz_inputs request = Some (JInt c, JArr (map JInt ids)) ->
  play_quiz int4in rand fuel request db = Some EXHAUSTED ->
  length ids = length (pool_of db c)
  /\ exists q0, draw rand (pool_of db c) 0 = Some q0 /\ shown ids q0 = true.
Proof.
  intros Hin Hex. unfold play_quiz in Hex.
  rewrite (play_quiz_try_inputs _ _ _ _ _ _ _ Hin), candidate_pool_int in Hex.
  cbn [lift rbind] in Hex.
  destruct (get_random_question rand (pool_of db c) 0) as [q0|e] eqn:Hq0;
    [|discriminate].
  assert (Hdraw : draw rand (pool_of db c) 0 = Some q0).
  { unfold get_random_question in Hq0. unfold draw.
    destruct (length (pool_of db c)); [discriminate|].
    destruct (nth_error _ _); [congruence | discriminate]. }
  destruct (sampling rand (pool_of db c) (JArr (map JInt ids)) fuel 1 q0)
    as [[resp|e]|] eqn:Hloop; try discriminate.
  cbn [option_map try_except respond] in Hex. injection Hex as ->.
  split.
  - destruct (Nat.eq_dec (length ids) (length (pool_of db c))) as [|Hne];
      [assumption|].
    exfalso. revert Hloop.
    apply (sampling_not_exhausted rand _ _ (Z.of_nat (length ids))).
    + cbn [py_len]. now rewrite length_map.
    + lia.
  - exists q0. split; [exact Hdraw|].
    destruct (shown ids q0) eqn:Hs; [reflexivity|].
    rewrite (sampling_unseen rand _ _ _ _ _ Hs) in Hloop. discriminate.
Qed.

Lemma play_quiz_exhausted_only_witness :
  length [2; 5; 9] = length (pool_of sample_store 5)
  /\ exists q0, draw (fun n => n) (pool_of sample_store 5) 0 = Some q0
                /\ shown [2; 5; 9] q0 = true.
Proof.
  exact (play_quiz_exhausted_only digit_int4in (fun n => n) 1
           (quiz_request 5 [2; 5; 9]) sample_store 5 [2; 5; 9] eq_refl eq_refl).
Defined.
